(** * PyWPS input/output handlers and format negotiation

    A shallow embedding of [pywps/inout/formats.py] (class [Format]) and
    [pywps/inout/basic.py] (classes [IOHandler], [SimpleHandler] and
    [BasicComplex]), with the properties of the handle abstraction and of
    format negotiation stated and proved over it.

    Python objects are records, attribute assignment is record update,
    [None] is [None] of an option (or [VNone] for a dynamically typed slot),
    an exception is the [Raise] outcome of a call, and the file system and
    the stream objects a handle refers to live in an explicit [World]. What
    the platform decides, the name of a temporary file or whether a
    directory can be made, is a parameter of the model. *)

From Stdlib Require Import ZArith Ascii String List Bool Lia.
From stdpp Require Import base option strings gmap stringmap pretty.

Local Open Scope string_scope.
Local Open Scope Z_scope.

(** ** Python values and exceptions *)

(** The values a handle can hold. Text is a byte string; a float is kept as
    its binary64 bit pattern; [VObj] is a reference to an object of the
    heap, among them the stream objects of the [World]. *)
Inductive pyval : Type :=
  | VNone
  | VStr (s : string)
  | VInt (z : Z)
  | VFloat (bits : Z)
  | VBool (b : bool)
  | VObj (ref : nat).

(** The exceptions the modelled code can raise. [IOError] is what opening
    a file raises, [OSError] what making a directory or a temporary file
    raises. *)
Inductive exn : Type :=
  | Exception (msg : string)
  | TypeError
  | ValueError
  | AttributeError
  | IOError
  | OSError
  | OverflowError
  | InvalidParameterValue (msg : string).

(** Outcome of a call: a returned value or a raised exception. *)
Inductive result (A : Type) : Type :=
  | Return (a : A)
  | Raise (e : exn).
Arguments Return {A} a.
Arguments Raise {A} e.

(** The three parts of what a method call yields. *)
Definition outcome {A T W : Type} (r : result A * T * W) : result A :=
  fst (fst r).

Definition object_after {A T W : Type} (r : result A * T * W) : T :=
  snd (fst r).

Definition world_after {A T W : Type} (r : result A * T * W) : W := snd r.

(** Truth value of an attribute that holds [None] or text: [None] and the
    empty text are false. *)
Definition truthy (o : option string) : bool :=
  match o with
  | None => false
  | Some s => negb (String.eqb s "")
  end.

(** ** Text helpers *)

(** [str.lower] on byte strings: the letters A-Z are mapped to a-z. *)
Definition lower_ascii (c : ascii) : ascii :=
  let n := N_of_ascii c in
  if ((65 <=? n) && (n <=? 90))%N then ascii_of_N (n + 32) else c.

Fixpoint lower (s : string) : string :=
  match s with
  | EmptyString => EmptyString
  | String c rest => String (lower_ascii c) (lower rest)
  end.

(** Comparison of two texts that ignores the case of letters, written
    independently of [lower]: two bytes agree when they are equal or are the
    two cases of one letter. *)
Definition is_upper (c : ascii) : bool :=
  let n := N_of_ascii c in ((65 <=? n) && (n <=? 90))%N.

Definition is_lower (c : ascii) : bool :=
  let n := N_of_ascii c in ((97 <=? n) && (n <=? 122))%N.

Definition same_letter (c d : ascii) : bool :=
  Ascii.eqb c d
  || (is_upper c && is_lower d && (N_of_ascii c + 32 =? N_of_ascii d)%N)
  || (is_lower c && is_upper d && (N_of_ascii d + 32 =? N_of_ascii c)%N).

Fixpoint caseless_eq (s t : string) : bool :=
  match s, t with
  | EmptyString, EmptyString => true
  | String c s', String d t' => same_letter c d && caseless_eq s' t'
  | _, _ => false
  end.

(** Every byte of the text is a lower-case letter. *)
Fixpoint all_lower (t : string) : bool :=
  match t with
  | EmptyString => true
  | String d t' => is_lower d && all_lower t'
  end.

(** The 256 bytes, and the check that lowering a byte and comparing it with
    a lower-case letter agrees with comparing the two up to case. *)
Definition all_bytes : list ascii := map ascii_of_nat (seq 0 256).

Definition lower_agrees (c d : ascii) : bool :=
  implb (is_lower d)
        (Bool.eqb (Ascii.eqb (lower_ascii c) d) (same_letter c d)).

(** Membership test [x in l] on a list of texts: a scan with [==]. *)
Fixpoint py_in (x : string) (l : list string) : bool :=
  match l with
  | [] => false
  | y :: rest => if String.eqb y x then true else py_in x rest
  end.

(** ** The world a handle acts on *)

(** Files by path with their contents, the directories that exist, and the
    stream objects of the heap with the text they have not yet given out. *)
Record World : Type := mkWorld {
  files : gmap string string;
  dirs : gset string;
  streams : gmap nat string
}.

Definition set_files (fs : gmap string string) (w : World) : World :=
  {| files := fs; dirs := dirs w; streams := streams w |}.

Definition set_dirs (ds : gset string) (w : World) : World :=
  {| files := files w; dirs := ds; streams := streams w |}.

Definition set_streams (ss : gmap nat string) (w : World) : World :=
  {| files := files w; dirs := dirs w; streams := ss |}.

(** ** The runtime the code runs on

    Builtins and module constants the two modules import but do not define.
    [LITERAL_DATA_TYPES] is the table of [pywps.inout.literaltypes];
    [int_of_text] and [float_of_text] read a number from text as [int] and
    [float] do, [None] standing for text they reject; [float_trunc] is [int]
    on a float and [float_of_int] is [float] on an integer, either of which
    can raise; [float_repr] and [object_repr] print a float and an object;
    [abspath] is [os.path.abspath].

    Three more are calls on the operating system, whose answer the code
    does not determine. [read_text] is what reading in text mode,
    [open(path, 'r').read()], makes of the bytes of a file: the text, with
    the line ends translated as the platform does, or the error of the
    decoding. [makedirs_error] is the error [os.makedirs] raises for a path
    in a world, if it raises one, with the directories it had made by
    then: it raises for the empty path, for a path at or under a regular
    file, where permission is missing. [mkstemp_name] is
    the path [tempfile.mkstemp] settles on for a prefix, a suffix and a
    directory, [None] standing for the default directory of the platform,
    or the error it raises: when the directory is missing or is no
    directory, or no file may be made there. *)
Class Runtime : Type := {
  LITERAL_DATA_TYPES : list string;
  int_of_text : string -> option Z;
  float_of_text : string -> option Z;
  float_trunc : Z -> result Z;
  float_of_int : Z -> result Z;
  float_repr : Z -> string;
  object_repr : nat -> string;
  abspath : string -> string;
  read_text : string -> result string;
  makedirs_error : string -> World -> option (exn * gset string);
  mkstemp_name : string -> string -> option string -> World -> result string
}.

Section Builtins.
Context `{RT : Runtime}.

(** [text_type(v)]: the text form of a value. *)
Definition text_type (v : pyval) : string :=
  match v with
  | VNone => "None"
  | VStr s => s
  | VInt z => pretty z
  | VFloat b => float_repr b
  | VBool true => "True"
  | VBool false => "False"
  | VObj r => object_repr r
  end.

(** [int(v)]. *)
Definition py_int (v : pyval) : result pyval :=
  match v with
  | VStr s =>
      match int_of_text s with
      | Some z => Return (VInt z)
      | None => Raise ValueError
      end
  | VInt z => Return (VInt z)
  | VBool b => Return (VInt (if b then 1 else 0))
  | VFloat b =>
      match float_trunc b with
      | Return z => Return (VInt z)
      | Raise e => Raise e
      end
  | VNone | VObj _ => Raise TypeError
  end.

(** [float(v)]. *)
Definition py_float (v : pyval) : result pyval :=
  match v with
  | VStr s =>
      match float_of_text s with
      | Some b => Return (VFloat b)
      | None => Raise ValueError
      end
  | VFloat b => Return (VFloat b)
  | VInt z =>
      match float_of_int z with
      | Return b => Return (VFloat b)
      | Raise e => Raise e
      end
  | VBool b =>
      match float_of_int (if b then 1 else 0) with
      | Return b => Return (VFloat b)
      | Raise e => Raise e
      end
  | VNone | VObj _ => Raise TypeError
  end.
End Builtins.

(** ** XML elements *)

(** An element as [lxml] builds it: a tag, the text it holds, its
    attributes, and its children in order. *)
#[warnings="-register-all"] Inductive element : Type :=
  | Element (tag : string) (text : option string)
            (attrib : list (string * string)) (children : list element).

Definition children_of (e : element) : list element :=
  match e with Element _ _ _ cs => cs end.

Definition tag_of (e : element) : string :=
  match e with Element t _ _ _ => t end.

Definition text_of (e : element) : option string :=
  match e with Element _ x _ _ => x end.

(** [ElementMaker()] called with a text, and called with a child. *)
Definition text_element (tag text : string) : element :=
  Element tag (Some text) [] [].

Definition parent_element (tag : string) (child : element) : element :=
  Element tag None [] [child].

(** [doc.append(child)]. *)
Definition element_append (doc child : element) : element :=
  match doc with
  | Element t x a cs => Element t x a (cs ++ [child])%list
  end.

(** ** [formats.py]: class [Format] *)

Module Format.

(** A [Format] object. [_encoding] and [_schema] hold [None] or text;
    [validate] holds [None] or a reference to the validating function. *)
Record t : Type := mk {
  _mime_type : string;
  _encoding : option string;
  _schema : option string;
  validate : option nat;
  extension : option string
}.

(** [Format.__init__(mime_type, schema, encoding, validate, extension)]. *)
Definition __init__ (mime_type : string) (schema encoding : option string)
    (validate : option nat) (extension : option string) : t :=
  {| _mime_type := mime_type; _encoding := encoding; _schema := schema;
     validate := validate; extension := extension |}.

(** The property getters: an attribute that is [None] or empty reads as
    the empty text. *)
Definition mime_type (self : t) : string := _mime_type self.

Definition encoding (self : t) : string :=
  if truthy (_encoding self) then default "" (_encoding self) else "".

Definition schema (self : t) : string :=
  if truthy (_schema self) then default "" (_schema self) else "".

(** [Format.same_as(self, frmt)]. *)
Definition same_as (self frmt : t) : bool :=
  String.eqb (mime_type frmt) (mime_type self)
  && String.eqb (encoding frmt) (encoding self)
  && String.eqb (schema frmt) (schema self).

(** [Format.describe_xml(self)]. *)
Definition describe_xml (self : t) : element :=
  let doc := parent_element "Format" (text_element "MimeType" (mime_type self)) in
  let doc :=
    if negb (String.eqb (encoding self) "")
    then element_append doc (text_element "Encoding" (encoding self))
    else doc in
  let doc :=
    if negb (String.eqb (schema self) "")
    then element_append doc (text_element "Schema" (schema self))
    else doc in
  doc.

End Format.

(** ** [formats.py]: the table of formats *)

Module FormatDefinition.

(** The named tuple [_FORMAT]. *)
Record t : Type := mk {
  mime_type : string;
  extension : string;
  schema : option string
}.

End FormatDefinition.

(** The named tuple [FORMATS], as its fields in order. *)
Definition FORMATS : list (string * FormatDefinition.t) :=
  [("GEOJSON", FormatDefinition.mk "application/vnd.geo+json" ".geojson" None);
   ("JSON", FormatDefinition.mk "application/json" ".json" None);
   ("SHP", FormatDefinition.mk "application/x-zipped-shp" ".zip" None);
   ("GML", FormatDefinition.mk "application/gml+xml" ".gml" None);
   ("GEOTIFF", FormatDefinition.mk "image/tiff; subtype=geotiff" ".tiff" None);
   ("WCS", FormatDefinition.mk "application/xogc-wcs" ".xml" None);
   ("WCS100",
    FormatDefinition.mk "application/x-ogc-wcs; version=1.0.0" ".xml" None);
   ("WCS110",
    FormatDefinition.mk "application/x-ogc-wcs; version=1.1.0" ".xml" None);
   ("WCS20",
    FormatDefinition.mk "application/x-ogc-wcs; version=2.0" ".xml" None);
   ("WFS", FormatDefinition.mk "application/x-ogc-wfs" ".xml" None);
   ("WFS100",
    FormatDefinition.mk "application/x-ogc-wfs; version=1.0.0" ".xml" None);
   ("WFS110",
    FormatDefinition.mk "application/x-ogc-wfs; version=1.1.0" ".xml" None);
   ("WFS20",
    FormatDefinition.mk "application/x-ogc-wfs; version=2.0" ".xml" None);
   ("WMS", FormatDefinition.mk "application/x-ogc-wms" ".xml" None);
   ("WMS130",
    FormatDefinition.mk "application/x-ogc-wms; version=1.3.0" ".xml" None);
   ("WMS110",
    FormatDefinition.mk "application/x-ogc-wms; version=1.1.0" ".xml" None);
   ("WMS100",
    FormatDefinition.mk "application/x-ogc-wms; version=1.0.0" ".xml" None)].

(** [d[key]] on a dictionary kept as its items in order. *)
Fixpoint dict_get {A : Type} (key : string) (d : list (string * A))
    : option A :=
  match d with
  | [] => None
  | (k, v) :: rest => if String.eqb k key then Some v else dict_get key rest
  end.

(** [get_format(frmt, validator=None)]. *)
Definition get_format (frmt : string) (validator : option nat) : Format.t :=
  match dict_get frmt FORMATS with
  | Some formatdef =>
      let outfrmt :=
        Format.__init__ (FormatDefinition.mime_type formatdef)
          (FormatDefinition.schema formatdef) None None
          (Some (FormatDefinition.extension formatdef)) in
      {| Format._mime_type := Format._mime_type outfrmt;
         Format._encoding := Format._encoding outfrmt;
         Format._schema := Format._schema outfrmt;
         Format.validate := validator;
         Format.extension := Format.extension outfrmt |}
  | None => Format.__init__ "None" None None validator None
  end.

(** The strict tables of the library module [mimetypes]: the type of each
    extension, and the extensions of each type in the order they came. *)
Module mimetypes.

Record db : Type := mk {
  types_map : gmap string string;
  types_map_inv : gmap string (list string)
}.

(** [mimetypes.add_type(type, ext, strict=True)]: the extension is given
    the type, and is added to the extensions of the type unless it is
    among them. *)
Definition add_type (type ext : string) (d : db) : db :=
  {| types_map := <[ext := type]> (types_map d);
     types_map_inv :=
       match types_map_inv d !! type with
       | Some exts =>
           if py_in ext exts then types_map_inv d
           else <[type := (exts ++ [ext])%list]> (types_map_inv d)
       | None => <[type := [ext]]> (types_map_inv d)
       end |}.

(** [mimetypes.guess_all_extensions(type)]. *)
Definition guess_all_extensions (type : string) (d : db) : list string :=
  default [] (types_map_inv d !! type).

End mimetypes.

(** The loop of [_get_mimetypes] over a table of formats. *)
Definition add_formats (table : list (string * FormatDefinition.t))
    (d : mimetypes.db) : mimetypes.db :=
  fold_left
    (fun acc entry =>
       mimetypes.add_type (FormatDefinition.mime_type (snd entry))
         (FormatDefinition.extension (snd entry)) acc)
    table d.

(** [_get_mimetypes()]; [init] is the tables [mimetypes.init()] sets up. *)
Definition _get_mimetypes (init : mimetypes.db) : mimetypes.db :=
  add_formats FORMATS init.

(** The type the last entry of a table with the extension [ext] has. *)
Fixpoint last_type_of (ext : string) (table : list (string * FormatDefinition.t))
    : option string :=
  match table with
  | [] => None
  | entry :: rest =>
      match last_type_of ext rest with
      | Some type => Some type
      | None =>
          if String.eqb (FormatDefinition.extension (snd entry)) ext
          then Some (FormatDefinition.mime_type (snd entry))
          else None
      end
  end.

(** The normalisation under which two optional fields are compared: an
    absent field is the empty text. *)
Definition or_empty (o : option string) : string :=
  match o with
  | None => ""
  | Some s => s
  end.

(** ** [basic.py]: the calls a handle makes on the world *)

Inductive SOURCE_TYPE : Type := MEMORY | FILE | STREAM | DATA.

(** [os.path.exists(path)]. *)
Definition path_exists (path : string) (w : World) : bool :=
  bool_decide (is_Some (files w !! path)) || bool_decide (path ∈ dirs w).

(** The ancestors of a path: its proper prefixes that end before a
    separator. *)
Fixpoint ancestors_from (pre s : string) : list string :=
  match s with
  | EmptyString => []
  | String c rest =>
      if Ascii.eqb c "/"%char
      then (if String.eqb pre "" then [] else [pre])
             ++ ancestors_from (pre +:+ "/") rest
      else ancestors_from (pre +:+ String c EmptyString) rest
  end.

(** [os.makedirs(path)]: the call raises, or makes the directory and its
    missing ancestors. *)
Definition makedirs `{RT : Runtime} (path : string) (w : World)
    : result pyval * World :=
  match makedirs_error path w with
  | Some (e, made) => (Raise e, set_dirs (made ∪ dirs w) w)
  | None =>
      (Return VNone,
       set_dirs ({[ path ]} ∪ list_to_set (ancestors_from "" path) ∪ dirs w) w)
  end.

(** [tempfile.mkstemp(prefix=.., suffix=.., dir=..)]: the call raises, or
    creates the file empty and returns its path. The file is created
    exclusively, so the path is one that named nothing before; a name that
    cannot be used is an error, and then no file is made. *)
Definition tempfile_mkstemp `{RT : Runtime} (prefix suffix : string)
    (dir : option string) (w : World) : result string * World :=
  match mkstemp_name prefix suffix dir w with
  | Return name =>
      if negb (String.eqb name "") && negb (path_exists name w)
      then (Return name, set_files (<[name := ""]> (files w)) w)
      else (Raise IOError, w)
  | Raise e => (Raise e, w)
  end.

(** [stream.read()]: the unread text is handed out and the stream is left
    exhausted; an object that is no stream has no [read]. *)
Definition stream_read (src : pyval) (w : World) : result pyval * World :=
  match src with
  | VObj r =>
      match streams w !! r with
      | Some rest =>
          (Return (VStr rest), set_streams (<[r := ""]> (streams w)) w)
      | None => (Raise AttributeError, w)
      end
  | _ => (Raise AttributeError, w)
  end.

(** A new stream object holding [content]. *)
Definition new_stream (content : string) (w : World) : pyval * World :=
  let r := fresh (dom (streams w)) in
  (VObj r, set_streams (<[r := content]> (streams w)) w).

(** [open(name, 'w')]: the file is created or emptied. *)
Definition open_w (name : string) (w : World) : World :=
  set_files (<[name := ""]> (files w)) w.

(** [file.write(v)] followed by [close()] on the file [name]: text is
    appended to the contents, any other value is refused. *)
Definition file_write (name : string) (v : pyval) (w : World)
    : result pyval * World :=
  match v with
  | VStr s =>
      (Return VNone,
       set_files (<[name := default "" (files w !! name) +:+ s]> (files w)) w)
  | _ => (Raise TypeError, w)
  end.

(** Opening a file for reading: the bytes it holds. A path that names no
    file cannot be opened, nor can a value that is no path. *)
Definition file_bytes (path : pyval) (w : World) : result string :=
  match path with
  | VStr p =>
      match files w !! p with
      | Some content => Return content
      | None => Raise IOError
      end
  | _ => Raise TypeError
  end.

(** [open(path, 'r').read()]: the file is read in text mode. *)
Definition file_read `{RT : Runtime} (path : pyval) (w : World)
    : result pyval :=
  match file_bytes path w with
  | Return content =>
      match read_text content with
      | Return text => Return (VStr text)
      | Raise e => Raise e
      end
  | Raise e => Raise e
  end.

(** The two functions of the library module [base64] the handlers call:
    [b64decode] can refuse its text, [b64encode] takes any text. *)
Class Base64 : Type := {
  b64decode : string -> result string;
  b64encode : string -> string
}.

(** ** [basic.py]: class [IOHandler] *)

Module IOHandler.

Record t : Type := mk {
  source_type : option SOURCE_TYPE;
  source : pyval;
  _tempfile : option string;
  _workdir : option string
}.

Definition set_source_type (k : option SOURCE_TYPE) (self : t) : t :=
  {| source_type := k; source := source self;
     _tempfile := _tempfile self; _workdir := _workdir self |}.

Definition set_source (v : pyval) (self : t) : t :=
  {| source_type := source_type self; source := v;
     _tempfile := _tempfile self; _workdir := _workdir self |}.

Definition set_tempfile (p : option string) (self : t) : t :=
  {| source_type := source_type self; source := source self;
     _tempfile := p; _workdir := _workdir self |}.

Definition set__workdir (p : option string) (self : t) : t :=
  {| source_type := source_type self; source := source self;
     _tempfile := _tempfile self; _workdir := p |}.

(** A method call: from the object and the world to an outcome, the object
    and the world after the call. *)
Definition call : Type := t -> World -> result pyval * t * World.

Section Methods.
Context `{RT : Runtime}.

(** [set_workdir(self, workdirpath)]: when [os.makedirs] raises, the
    assignment to [_workdir] is not reached. *)
Definition set_workdir (workdirpath : option string) : call :=
  fun self w =>
    match workdirpath with
    | Some d =>
        if negb (path_exists d w) then
          match makedirs d w with
          | (Raise e, w') => (Raise e, self, w')
          | (Return _, w') => (Return VNone, set__workdir workdirpath self, w')
          end
        else (Return VNone, set__workdir workdirpath self, w)
    | None => (Return VNone, set__workdir workdirpath self, w)
    end.

(** [get_workdir(self)]. *)
Definition get_workdir (self : t) : option string := _workdir self.

(** [__init__(self, workdir=None)]: the attributes are set in turn, the
    last through the [workdir] property, whose setter can raise. The call
    yields the new object as [__init__] has left it; [_workdir] holds
    [None] until the setter assigns it. *)
Definition __init__ (workdir : option string) (w : World)
    : result pyval * t * World :=
  set_workdir workdir
    {| source_type := None; source := VNone;
       _tempfile := None; _workdir := None |} w.

(** [set_file(self, filename)]. *)
Definition set_file (filename : string) : call :=
  fun self w =>
    (Return VNone,
     set_source (VStr (abspath filename)) (set_source_type (Some FILE) self),
     w).

(** [set_memory_object(self, memory_object)]. *)
Definition set_memory_object (memory_object : pyval) : call :=
  fun self w => (Return VNone, set_source_type (Some MEMORY) self, w).

(** [set_stream(self, stream)]. *)
Definition set_stream (stream : pyval) : call :=
  fun self w =>
    (Return VNone, set_source stream (set_source_type (Some STREAM) self), w).

(** [set_data(self, data)]. *)
Definition set_data (data : pyval) : call :=
  fun self w =>
    (Return VNone, set_source data (set_source_type (Some DATA) self), w).

(** [tempfile.mkstemp(dir=d)]: the prefix and the suffix are the defaults
    of the library. *)
Definition mkstemp (d : option string) (w : World) : result string * World :=
  tempfile_mkstemp "tmp" "" d w.

(** [get_file(self)]. *)
Definition get_file : call :=
  fun self w =>
    match source_type self with
    | Some FILE => (Return (source self), self, w)
    | Some STREAM | Some DATA =>
        if truthy (_tempfile self)
        then (Return (VStr (default "" (_tempfile self))), self, w)
        else
          match mkstemp (get_workdir self) w with
          | (Raise e, w1) => (Raise e, self, w1)
          | (Return stream_file_name, w1) =>
              let w2 := open_w stream_file_name w1 in
              let '(text, w3) :=
                match source_type self with
                | Some STREAM => stream_read (source self) w2
                | _ => (Return (source self), w2)
                end in
              match text with
              | Raise e => (Raise e, self, w3)
              | Return v =>
                  match file_write stream_file_name v w3 with
                  | (Raise e, w4) => (Raise e, self, w4)
                  | (Return _, w4) =>
                      (Return (VStr stream_file_name),
                       set_tempfile (Some stream_file_name) self, w4)
                  end
              end
          end
    | _ => (Return VNone, self, w)
    end.

(** [get_memory_object(self)]. *)
Definition get_memory_object : call :=
  fun self w =>
    (Raise (Exception
       "setmemory_object not implemented, Soeren promissed to implement at WPS Workshop on 23rd of January 2014"),
     self, w).

(** [get_stream(self)]. A stream opened on a file is a raw one, and is
    given the bytes the file holds at that moment. *)
Definition get_stream : call :=
  fun self w =>
    match source_type self with
    | Some FILE =>
        match file_bytes (source self) w with
        | Return content =>
            let '(s, w') := new_stream content w in (Return s, self, w')
        | Raise e => (Raise e, self, w)
        end
    | Some STREAM => (Return (source self), self, w)
    | Some DATA =>
        let '(s, w') := new_stream (text_type (source self)) w in
        (Return s, self, w')
    | _ => (Return VNone, self, w)
    end.

(** [get_data(self)]. *)
Definition get_data : call :=
  fun self w =>
    match source_type self with
    | Some FILE =>
        match file_read (source self) w with
        | Return content => (Return content, self, w)
        | Raise e => (Raise e, self, w)
        end
    | Some STREAM =>
        let '(r, w') := stream_read (source self) w in (r, self, w')
    | Some DATA => (Return (source self), self, w)
    | _ => (Return VNone, self, w)
    end.

Context `{B64 : Base64}.

(** [set_base64(self, data)]: the decoded text is assigned to the [data]
    property, here the one of [IOHandler]. *)
Definition set_base64 (data : pyval) : call :=
  fun self w =>
    match data with
    | VStr s =>
        match b64decode s with
        | Return decoded => set_data (VStr decoded) self w
        | Raise e => (Raise e, self, w)
        end
    | _ => (Raise TypeError, self, w)
    end.

(** [get_base64(self)]: the [data] property is read, then encoded; only
    text can be encoded. *)
Definition get_base64 : call :=
  fun self w =>
    let '(r, self', w') := get_data self w in
    match r with
    | Return (VStr s) => (Return (VStr (b64encode s)), self', w')
    | Return _ => (Raise TypeError, self', w')
    | Raise e => (Raise e, self', w')
    end.

End Methods.
End IOHandler.

(** ** [basic.py]: class [SimpleHandler] *)

Module SimpleHandler.

(** A [SimpleHandler] is an [IOHandler] (the inherited attributes, [io])
    with a declared data type and a validator. *)
Record t : Type := mk {
  io : IOHandler.t;
  data_type : option string;
  _validator : option nat
}.

Definition set_io (h : IOHandler.t) (self : t) : t :=
  {| io := h; data_type := data_type self; _validator := _validator self |}.

Definition call : Type := t -> World -> result pyval * t * World.

(** An inherited method runs on the inherited attributes. *)
Definition inherited (m : IOHandler.call) : call :=
  fun self w => let '(r, h, w') := m (io self) w in (r, set_io h self, w').

Section Methods.
Context `{RT : Runtime}.

(** [__init__(self, workdir=None, data_type=None)]: when the inherited
    [__init__] raises, the two attributes of this class are not reached,
    and hold [None]. *)
Definition __init__ (workdir data_type : option string) (w : World)
    : result pyval * t * World :=
  match IOHandler.__init__ workdir w with
  | (Raise e, h, w') =>
      (Raise e, {| io := h; data_type := None; _validator := None |}, w')
  | (Return _, h, w') =>
      (Return VNone,
       {| io := h; data_type := data_type; _validator := None |}, w')
  end.

(** [get_data(self)]. *)
Definition get_data : call := inherited IOHandler.get_data.

(** The conversion chain of [set_data], for the lowered data type [dt]. *)
Definition convert (dt : string) (data : pyval) : result pyval :=
  if String.eqb dt "string" then Return (VStr (text_type data))
  else if String.eqb dt "integer" then py_int data
  else if String.eqb dt "float" then py_float data
  else if String.eqb dt "boolean" then
    match data with
    | VStr s => if String.eqb (lower s) "true"
                then Return (VBool true) else Return (VBool false)
    | _ => Raise AttributeError
    end
  else Return data.

(** [set_data(self, data)]. The call of [IOHandler.set_data] stands inside
    the two tests on the data type, as it does in the source. *)
Definition set_data (data : pyval) : call :=
  fun self w =>
    if truthy (data_type self) then
      let dt := lower (default "" (data_type self)) in
      if py_in dt LITERAL_DATA_TYPES then
        match convert dt data with
        | Raise e => (Raise e, self, w)
        | Return data' => inherited (IOHandler.set_data data') self w
        end
      else (Return VNone, self, w)
    else (Return VNone, self, w).

End Methods.
End SimpleHandler.

(** ** [basic.py]: class [BasicComplex] *)

Module BasicComplex.

(** [supported_formats] holds [None] or a list of formats; [_data_format]
    holds [None] or the active format. *)
Record t : Type := mk {
  _data_format : option Format.t;
  supported_formats : option (list Format.t)
}.

(** The loop of [_is_supported]: the first format that is the same as the
    requested one ends it. *)
Fixpoint supported_loop (fs : list Format.t) (data_format : Format.t) : bool :=
  match fs with
  | [] => false
  | frmt :: rest =>
      if Format.same_as frmt data_format then true
      else supported_loop rest data_format
  end.

(** [_is_supported(self, data_format)]; [None] cannot be iterated. *)
Definition _is_supported (data_format : Format.t) (self : t) : result bool :=
  match supported_formats self with
  | None => Raise TypeError
  | Some fs => Return (supported_loop fs data_format)
  end.

(** The message of the rejection. *)
Definition not_supported (data_format : Format.t) : string :=
  "Requested format " +:+ Format.mime_type data_format +:+ ", "
  +:+ Format.encoding data_format +:+ ", "
  +:+ Format.schema data_format +:+ " not supported".

(** The getter of the [data_format] property. *)
Definition data_format (self : t) : option Format.t := _data_format self.

(** The setter of the [data_format] property. *)
Definition set_data_format (data_format : Format.t) (self : t)
    : result unit * t :=
  match _is_supported data_format self with
  | Raise e => (Raise e, self)
  | Return true =>
      (Return tt, {| _data_format := Some data_format;
                     supported_formats := supported_formats self |})
  | Return false =>
      (Raise (InvalidParameterValue (not_supported data_format)), self)
  end.

(** [__init__(self, data_format=None, supported_formats=None)]; an
    exception leaves no object. *)
Definition __init__ (data_format : option Format.t)
    (supported_formats : option (list Format.t)) : result t :=
  let self := {| _data_format := None;
                 supported_formats := supported_formats |} in
  let first :=
    match supported_formats with
    | Some (first :: _) => set_data_format first self
    | _ => (Return tt, self)
    end in
  match first with
  | (Raise e, _) => Raise e
  | (Return _, self1) =>
      match data_format with
      | Some requested =>
          match set_data_format requested self1 with
          | (Raise e, _) => Raise e
          | (Return _, self2) => Return self2
          end
      | None => Return self1
      end
  end.

End BasicComplex.

(** ** [basic.py]: the described inputs and outputs *)

(** What a constructor can raise besides the exceptions above: a failed
    [assert], an index out of range, a missing key. *)
Inductive failure : Type :=
  | Builtin (e : exn)
  | AssertionError
  | IndexError
  | KeyError (key : string).

(** A constructor call: it completes with the object or fails. *)
Inductive completion (A : Type) : Type :=
  | Completes (a : A)
  | Fails (f : failure).
Arguments Completes {A} a.
Arguments Fails {A} f.

Module BasicIO.

Record t : Type := mk {
  identifier : string;
  title : option string;
  abstract : option string
}.

(** [__init__(self, identifier, title=None, abstract=None)]. *)
Definition __init__ (identifier : string) (title abstract : option string) : t :=
  {| identifier := identifier; title := title; abstract := abstract |}.

End BasicIO.

Module UOM.

Record t : Type := mk { uom : string }.

(** [__init__(self, uom='')]. *)
Definition __init__ (uom : string) : t := {| uom := uom |}.

End UOM.

(** What a caller passes as a unit of measure: a text or a [UOM] object;
    and as [uoms]: nothing, one unit, or a list of units. *)
Inductive uom_value : Type :=
  | UText (s : string)
  | UObject (u : UOM.t).

Inductive uoms_arg : Type :=
  | UomsNone
  | UomsOne (v : uom_value)
  | UomsList (l : list uom_value).

Module BasicLiteral.

Record t : Type := mk {
  data_type : string;
  uoms : option (list UOM.t);
  _uom : option UOM.t
}.

(** The truth value of the [uoms] argument. *)
Definition uoms_given (uoms : uoms_arg) : bool :=
  match uoms with
  | UomsNone => false
  | UomsOne (UText s) => negb (String.eqb s "")
  | UomsOne (UObject _) => true
  | UomsList [] => false
  | UomsList (_ :: _) => true
  end.

(** The body of the loop over [uoms]: a unit that is no [UOM] is wrapped. *)
Definition as_uom (v : uom_value) : UOM.t :=
  match v with
  | UObject u => u
  | UText s => UOM.__init__ s
  end.

Section Methods.
Context `{RT : Runtime}.

(** [__init__(self, data_type=None, uoms=None)]. The test on [self.uoms]
    comes right after [self.uoms = None], so its branch never runs. *)
Definition __init__ (data_type : option string) (uoms : uoms_arg)
    : completion t :=
  let chosen :=
    if negb (truthy data_type)
    then match nth_error LITERAL_DATA_TYPES 2 with
         | Some d => Completes d
         | None => Fails IndexError
         end
    else Completes (default "" data_type) in
  match chosen with
  | Fails f => Fails f
  | Completes d =>
      if py_in d LITERAL_DATA_TYPES then
        let listed :=
          if uoms_given uoms then
            let items :=
              match uoms with
              | UomsList l => l
              | UomsOne v => [v]
              | UomsNone => []
              end in
            Some (map as_uom items)
          else None in
        Completes {| data_type := d; uoms := listed; _uom := None |}
      else Fails AssertionError
  end.

End Methods.
End BasicLiteral.

Module BasicBoundingBox.

Record t : Type := mk {
  crss : list string;
  crs : string;
  dimensions : option Z;
  ll : list Z;
  ur : list Z
}.

(** [__init__(self, crss=None, dimensions=2)]; the caller passes both
    arguments. The index [0] is taken on a list the [or] has made
    non-empty. *)
Definition __init__ (crss : option (list string)) (dimensions : option Z) : t :=
  let chosen :=
    match crss with
    | Some (c :: rest) => c :: rest
    | _ => ["epsg:4326"]
    end in
  {| crss := chosen; crs := hd "" chosen; dimensions := dimensions;
     ll := []; ur := [] |}.

End BasicBoundingBox.

Module LiteralInput.

(** The attributes of the three bases; [data_type] is one attribute,
    written by [BasicLiteral.__init__] and then by
    [SimpleHandler.__init__], and is kept in [handler]. *)
Record t : Type := mk {
  basic : BasicIO.t;
  uoms : option (list UOM.t);
  _uom : option UOM.t;
  handler : SimpleHandler.t;
  allowed_values : option (list pyval);
  any_value : bool
}.

Section Methods.
Context `{RT : Runtime}.

(** [__init__(self, identifier, title, abstract, data_type, workdir,
    allowed_values, uoms)]. *)
Definition __init__ (identifier : string) (title abstract : option string)
    (data_type workdir : option string) (allowed_values : option (list pyval))
    (uoms : uoms_arg) (w : World) : completion t * World :=
  let io := BasicIO.__init__ identifier title abstract in
  match BasicLiteral.__init__ data_type uoms with
  | Fails f => (Fails f, w)
  | Completes lit =>
      match SimpleHandler.__init__ workdir data_type w with
      | (Raise e, _, w') => (Fails (Builtin e), w')
      | (Return _, h, w') =>
          (Completes {| basic := io;
                        uoms := BasicLiteral.uoms lit;
                        _uom := BasicLiteral._uom lit;
                        handler := h;
                        allowed_values := allowed_values;
                        any_value := match allowed_values with
                                     | None => true
                                     | Some _ => false
                                     end |}, w')
      end
  end.

End Methods.
End LiteralInput.

Module LiteralOutput.

Record t : Type := mk {
  basic : BasicIO.t;
  uoms : option (list UOM.t);
  _uom : option UOM.t;
  handler : SimpleHandler.t;
  _storage : option nat
}.

Section Methods.
Context `{RT : Runtime}.

(** [__init__(self, identifier, title, abstract, data_type, workdir,
    uoms)]; the handler is made with [workdir=None]. *)
Definition __init__ (identifier : string) (title abstract : option string)
    (data_type workdir : option string) (uoms : uoms_arg) (w : World)
    : completion t * World :=
  let io := BasicIO.__init__ identifier title abstract in
  match BasicLiteral.__init__ data_type uoms with
  | Fails f => (Fails f, w)
  | Completes lit =>
      match SimpleHandler.__init__ None data_type w with
      | (Raise e, _, w') => (Fails (Builtin e), w')
      | (Return _, h, w') =>
          (Completes {| basic := io;
                        uoms := BasicLiteral.uoms lit;
                        _uom := BasicLiteral._uom lit;
                        handler := h;
                        _storage := None |}, w')
      end
  end.

End Methods.
End LiteralOutput.

Module BBoxInput.

Record t : Type := mk {
  basic : BasicIO.t;
  box : BasicBoundingBox.t;
  handler : IOHandler.t
}.

(** [__init__(self, identifier, title, abstract, crss, dimensions=None,
    workdir=None)]; the handler is made with [workdir=None], and with it
    the inherited [__init__] has nothing to raise. *)
Definition __init__ `{RT : Runtime} (identifier : string)
    (title abstract : option string)
    (crss : option (list string)) (dimensions : option Z)
    (workdir : option string) (w : World) : t * World :=
  let io := BasicIO.__init__ identifier title abstract in
  let bb := BasicBoundingBox.__init__ crss dimensions in
  let made := IOHandler.__init__ None w in
  ({| basic := io; box := bb; handler := object_after made |},
   world_after made).

End BBoxInput.

Module BBoxOutput.

Record t : Type := mk {
  basic : BasicIO.t;
  box : BasicBoundingBox.t;
  handler : SimpleHandler.t;
  _storage : option nat
}.

(** [__init__(self, identifier, title, abstract, crss, dimensions=None,
    workdir=None)]; the handler is made with [workdir=None] and no data
    type, and with them the inherited [__init__] has nothing to raise. *)
Definition __init__ `{RT : Runtime} (identifier : string)
    (title abstract : option string)
    (crss : option (list string)) (dimensions : option Z)
    (workdir : option string) (w : World) : t * World :=
  let io := BasicIO.__init__ identifier title abstract in
  let bb := BasicBoundingBox.__init__ crss dimensions in
  let made := SimpleHandler.__init__ None None w in
  ({| basic := io; box := bb; handler := object_after made;
      _storage := None |}, world_after made).

End BBoxOutput.

Module ComplexInput.

Record t : Type := mk {
  basic : BasicIO.t;
  complex : BasicComplex.t;
  handler : IOHandler.t
}.

(** [__init__(self, identifier, title, abstract, workdir, data_format,
    supported_formats)]. *)
Definition __init__ `{RT : Runtime} (identifier : string)
    (title abstract : option string)
    (workdir : option string) (data_format : option Format.t)
    (supported_formats : option (list Format.t)) (w : World)
    : result t * World :=
  let io := BasicIO.__init__ identifier title abstract in
  match BasicComplex.__init__ data_format supported_formats with
  | Raise e => (Raise e, w)
  | Return bc =>
      match IOHandler.__init__ workdir w with
      | (Raise e, _, w') => (Raise e, w')
      | (Return _, h, w') =>
          (Return {| basic := io; complex := bc; handler := h |}, w')
      end
  end.

End ComplexInput.

Module ComplexOutput.

(** [_storage] holds [None] or a storage object. *)
Record t : Type := mk {
  basic : BasicIO.t;
  complex : BasicComplex.t;
  handler : IOHandler.t;
  _storage : option nat
}.

(** [__init__(self, identifier, title, abstract, workdir, data_format,
    supported_formats)]. *)
Definition __init__ `{RT : Runtime} (identifier : string)
    (title abstract : option string)
    (workdir : option string) (data_format : option Format.t)
    (supported_formats : option (list Format.t)) (w : World)
    : result t * World :=
  let io := BasicIO.__init__ identifier title abstract in
  match BasicComplex.__init__ data_format supported_formats with
  | Raise e => (Raise e, w)
  | Return bc =>
      match IOHandler.__init__ workdir w with
      | (Raise e, _, w') => (Raise e, w')
      | (Return _, h, w') =>
          (Return {| basic := io; complex := bc; handler := h;
                     _storage := None |}, w')
      end
  end.

End ComplexOutput.

(** ** [slurm.py] *)

(** [pywps.configuration]: the value of a key of a section. *)
Class Configuration : Type := {
  get_config_value : string -> string -> string
}.

(** The library [pathos], which copies files to other hosts and runs
    commands on them: [copy_error source destination] and
    [launch_error host command] are the errors its copier and its launcher
    raise, if they raise: the library is missing, the host is not
    reached. *)
Class Remote : Type := {
  copy_error : string -> string -> option exn;
  launch_error : string -> string -> option exn
}.

(** Where a job is started: the local world, the copies that were made to
    other hosts, as source and destination, and the commands that were
    launched on other hosts, as host and command. *)
Record Site : Type := mkSite {
  local : World;
  copied : list (string * string);
  launched : list (string * string)
}.

Definition set_local (w : World) (s : Site) : Site :=
  {| local := w; copied := copied s; launched := launched s |}.

Definition newline : string := String (ascii_of_nat 10) EmptyString.

Definition double_quote : string := String (ascii_of_nat 34) EmptyString.

(** [SLURM_TMPL.format(pid=.., env=.., prefix=.., filename=..)]. *)
Definition SLURM_TMPL (pid env prefix filename : string) : string :=
  "#!/bin/bash" +:+ newline
  +:+ "#SBATCH -e /tmp/" +:+ pid +:+ ".err" +:+ newline
  +:+ "#SBATCH -o /tmp/" +:+ pid +:+ ".out" +:+ newline
  +:+ "#SBATCH -J " +:+ pid +:+ newline
  +:+ "#SBATCH --time=00:30:00" +:+ newline
  +:+ "#set -eo pipefail -o nounset" +:+ newline
  +:+ "export PATH=" +:+ double_quote +:+ prefix +:+ "/bin:$PATH"
  +:+ double_quote +:+ newline
  +:+ "source activate " +:+ env +:+ ";launch " +:+ double_quote
  +:+ filename +:+ double_quote +:+ newline.

(** [host or "localhost"]. *)
Definition host_or_localhost (host : option string) : string :=
  if truthy host then default "" host else "localhost".

(** [secure_copy(source, target, host=None)]. *)
Definition secure_copy `{RM : Remote} (source target : string)
    (host : option string) (s : Site) : result pyval * Site :=
  let host := host_or_localhost host in
  let destination := host +:+ ":" +:+ target in
  match copy_error source destination with
  | Some e => (Raise e, s)
  | None =>
      (Return VNone,
       {| local := local s;
          copied := (copied s ++ [(source, destination)])%list;
          launched := launched s |})
  end.

Module Slurm.

(** The job of a [Slurm] object: the identifier of its process and its
    [dump] method, which writes the job to a file and returns the name,
    or raises. *)
Record t : Type := mk {
  uuid : string;
  dump : World -> result pyval * World
}.

Section Methods.
Context `{RT : Runtime} `{CF : Configuration} `{RM : Remote}.

(** [sbatch(filename, host=None)]. *)
Definition sbatch (filename : pyval) (host : option string) (s : Site)
    : result pyval * Site :=
  let host := host_or_localhost host in
  let command := "sbatch " +:+ text_type filename in
  match launch_error host command with
  | Some e => (Raise e, s)
  | None =>
      (Return VNone,
       {| local := local s;
          copied := copied s;
          launched := (launched s ++ [(host, command)])%list |})
  end.

(** [_build_submit_file(self, dump_file_name)]; the method has no
    [return]. *)
Definition _build_submit_file (dump_file_name : pyval) (self : t) (w : World)
    : result pyval * World :=
  let workdir := get_config_value "server" "workdir" in
  match tempfile_mkstemp "slurm_" ".submit" (Some workdir) w with
  | (Raise e, w1) => (Raise e, w1)
  | (Return submit_file_name, w1) =>
      let w2 := open_w submit_file_name w1 in
      match
        file_write submit_file_name
          (VStr (SLURM_TMPL (uuid self) "emu" "/home/pingu/anaconda"
                   (text_type dump_file_name))) w2
      with
      | (Raise e, w3) => (Raise e, w3)
      | (Return _, w3) => (Return VNone, w3)
      end
  end.

(** [start(self)]. *)
Definition start (self : t) (s : Site) : result pyval * Site :=
  let host := get_config_value "extra" "host" in
  match dump self (local s) with
  | (Raise e, w1) => (Raise e, set_local w1 s)
  | (Return dump_file_name, w1) =>
      match _build_submit_file dump_file_name self w1 with
      | (Raise e, w2) => (Raise e, set_local w2 s)
      | (Return submit_file_name, w2) =>
          sbatch submit_file_name (Some host) (set_local w2 s)
      end
  end.

End Methods.
End Slurm.

(** ** A runtime to run the code on *)

(** Reading a decimal integer from text: blanks around it are dropped, a
    sign may lead, and at least one digit must follow. *)
Definition is_blank (c : ascii) : bool :=
  let n := N_of_ascii c in ((n =? 32) || ((9 <=? n) && (n <=? 13)))%N.

Fixpoint lstrip (s : string) : string :=
  match s with
  | String c rest => if is_blank c then lstrip rest else s
  | EmptyString => EmptyString
  end.

Definition strip (s : string) : string :=
  String.rev (lstrip (String.rev (lstrip s))).

Fixpoint digits_value (acc : Z) (s : string) : option Z :=
  match s with
  | EmptyString => Some acc
  | String c rest =>
      let n := N_of_ascii c in
      if ((48 <=? n) && (n <=? 57))%N
      then digits_value (10 * acc + (Z.of_N n - 48)) rest
      else None
  end.

Definition unsigned_of_text (s : string) : option Z :=
  match s with
  | EmptyString => None
  | _ => digits_value 0 s
  end.

Definition decimal_of_text (s : string) : option Z :=
  match strip s with
  | String "-" rest => Z.opp <$> unsigned_of_text rest
  | String "+" rest => unsigned_of_text rest
  | t => unsigned_of_text t
  end.

(** Modelled from the spec: the table [LITERAL_DATA_TYPES] of
    [pywps.inout.literaltypes], which is not among the sources; the spec
    gives the declared types as string, integer, float and boolean. *)
Definition spec_LITERAL_DATA_TYPES : list string :=
  ["float"; "boolean"; "integer"; "string"].

(** A runtime for running the code on examples. Integers are read in
    decimal; of the floats only the few the examples use are known, by
    their bit patterns (0.0, 1.0, 1.5 and 2.0). *)
Definition sample_floats : list (string * Z) :=
  [("0.0", 0); ("1.0", 4607182418800017408);
   ("1.5", 4609434218613702656); ("2.0", 4611686018427387904)].

Definition sample_float_of_text (s : string) : option Z :=
  snd <$> List.find (fun e => String.eqb (fst e) (strip s)) sample_floats.

Definition sample_float_repr (b : Z) : string :=
  default "nan" (fst <$> List.find (fun e => Z.eqb (snd e) b) sample_floats).

Definition sample_float_of_int (z : Z) : result Z :=
  match sample_float_of_text (pretty z +:+ ".0") with
  | Some b => Return b
  | None => Raise OverflowError
  end.

Definition sample_float_trunc (b : Z) : result Z :=
  if Z.eqb b 0 then Return 0
  else if Z.eqb b 4607182418800017408 then Return 1
  else if Z.eqb b 4609434218613702656 then Return 1
  else if Z.eqb b 4611686018427387904 then Return 2
  else Raise OverflowError.

(** Reading in text mode, as a platform does whose files are UTF-8 text:
    the bytes must be well-formed UTF-8, and are kept as they are but for
    the line ends, a carriage return with or without a line feed after it
    becoming a line feed. *)
Fixpoint well_formed_utf8 (l : list N) : bool :=
  let cont := fun b => ((128 <=? b) && (b <=? 191))%N in
  match l with
  | [] => true
  | a :: rest =>
      if (a <? 128)%N then well_formed_utf8 rest
      else if ((194 <=? a) && (a <=? 223))%N then
        match rest with
        | b :: rest1 => cont b && well_formed_utf8 rest1
        | _ => false
        end
      else if ((224 <=? a) && (a <=? 239))%N then
        match rest with
        | b :: c :: rest2 =>
            cont b && cont c
            && (if (a =? 224)%N then (160 <=? b)%N
                else if (a =? 237)%N then (b <=? 159)%N else true)
            && well_formed_utf8 rest2
        | _ => false
        end
      else if ((240 <=? a) && (a <=? 244))%N then
        match rest with
        | b :: c :: d :: rest3 =>
            cont b && cont c && cont d
            && (if (a =? 240)%N then (144 <=? b)%N
                else if (a =? 244)%N then (b <=? 143)%N else true)
            && well_formed_utf8 rest3
        | _ => false
        end
      else false
  end.

Fixpoint universal_newlines (s : string) : string :=
  match s with
  | EmptyString => EmptyString
  | String c rest =>
      if (N_of_ascii c =? 13)%N then
        String (ascii_of_nat 10)
          match rest with
          | String d rest1 =>
              if (N_of_ascii d =? 10)%N then universal_newlines rest1
              else universal_newlines rest
          | EmptyString => EmptyString
          end
      else String c (universal_newlines rest)
  end.

Definition sample_read_text (content : string) : result string :=
  if well_formed_utf8 (map N_of_ascii (list_ascii_of_string content))
  then Return (universal_newlines content)
  else Raise ValueError.

(** A directory cannot be made at the empty path, at or under a regular
    file, or where one is already; the refusal comes before any directory
    is made. *)
Definition sample_makedirs_error (path : string) (w : World)
    : option (exn * gset string) :=
  if String.eqb path "" then Some (OSError, ∅)
  else if existsb (fun a => bool_decide (is_Some (files w !! a)))
            (path :: ancestors_from "" path) then Some (OSError, ∅)
  else if bool_decide (path ∈ dirs w) then Some (OSError, ∅)
  else None.

(** Names for temporary files. Where the library draws names at random,
    this runtime counts, so that the examples run the same each time: the
    names tried in a folder are the prefix and the suffix with a counter
    between them, when there is a suffix, and the prefix with a counter
    after it, when there is none. The first that names no file is taken;
    among one more names than there are files one is free. The folder must
    be a directory, the default one being [/tmp]. *)
Definition named_candidate (folder prefix suffix : string) (n : nat) : string :=
  (folder +:+ "/" +:+ prefix) +:+ pretty n +:+ suffix.

Definition first_free (candidate : nat -> string) (fs : gmap string string)
    : string :=
  default (candidate 0%nat)
    (List.find (fun p => bool_decide (fs !! p = None))
       (map candidate (seq 0 (S (size fs))))).

Definition sample_mkstemp_name (prefix suffix : string) (dir : option string)
    (w : World) : result string :=
  let folder := default "/tmp" dir in
  if bool_decide (folder ∈ dirs w) then
    Return (if String.eqb suffix ""
            then fresh_string (folder +:+ "/" +:+ prefix) (files w)
            else first_free (named_candidate folder prefix suffix) (files w))
  else Raise OSError.

Definition sample_runtime : Runtime :=
  {| LITERAL_DATA_TYPES := spec_LITERAL_DATA_TYPES;
     int_of_text := decimal_of_text;
     float_of_text := sample_float_of_text;
     float_trunc := sample_float_trunc;
     float_of_int := sample_float_of_int;
     float_repr := sample_float_repr;
     object_repr := fun r => "<object " +:+ pretty r +:+ ">";
     abspath := fun p =>
       match p with
       | String "/" _ => p
       | _ => "/home/wps/" +:+ p
       end;
     read_text := sample_read_text;
     makedirs_error := sample_makedirs_error;
     mkstemp_name := sample_mkstemp_name |}.

(** A world with no file and no stream, holding the default temporary
    directory. *)
Definition empty_world : World :=
  {| files := ∅; dirs := {[ "/tmp" ]}; streams := ∅ |}.

(** Formats for the examples: two entries of a catalogue, a request for
    the second that carries its own validator and an empty encoding, and a
    format outside the catalogue. *)
Definition sample_json : Format.t :=
  Format.__init__ "application/json" None None None (Some ".json").

Definition sample_gml : Format.t :=
  Format.__init__ "application/gml+xml" None None None (Some ".gml").

Definition requested_gml : Format.t :=
  Format.__init__ "application/gml+xml" None (Some "") (Some 3%nat) None.

Definition sample_tiff : Format.t :=
  Format.__init__ "image/tiff; subtype=geotiff" None None None (Some ".tiff").

(** A handle made with the defaults, and the same handle after a number,
    and after a text, was set as its value. *)
Definition fresh_handle : IOHandler.t * World :=
  let made := @IOHandler.__init__ sample_runtime None empty_world in
  (object_after made, world_after made).

Definition number_handle : IOHandler.t :=
  object_after (IOHandler.set_data (VInt 5) (fst fresh_handle)
                  (snd fresh_handle)).

Definition text_handle : IOHandler.t :=
  object_after (IOHandler.set_data (VStr "hello") (fst fresh_handle)
                  (snd fresh_handle)).

(** The first and the second request for a file on each of the two. *)
Definition number_first : result pyval * IOHandler.t * World :=
  @IOHandler.get_file sample_runtime number_handle (snd fresh_handle).

Definition number_second : result pyval * IOHandler.t * World :=
  @IOHandler.get_file sample_runtime (object_after number_first)
    (world_after number_first).

Definition text_first : result pyval * IOHandler.t * World :=
  @IOHandler.get_file sample_runtime text_handle (snd fresh_handle).

(** Literal handles made with no data type, with a data type outside the
    table, and with each of the four in it. *)
Definition untyped_handle : SimpleHandler.t * World :=
  let made := @SimpleHandler.__init__ sample_runtime None None empty_world in
  (object_after made, world_after made).

Definition typed_handle (data_type : string) : SimpleHandler.t :=
  object_after
    (@SimpleHandler.__init__ sample_runtime None (Some data_type) empty_world).

(** Tables of the media-type registry for the examples: two extensions
    the platform knows before the formats are added. *)
Definition sample_db : mimetypes.db :=
  {| mimetypes.types_map :=
       {[ ".zip" := "application/zip"; ".txt" := "text/plain" ]};
     mimetypes.types_map_inv :=
       {[ "application/zip" := [".zip"]; "text/plain" := [".txt"] ]} |}.

(** A world with one file and one stream, and handles on them. *)
Definition sample_world : World :=
  {| files := {[ "/data/in.txt" := "abc" ]};
     dirs := {[ "/tmp"; "/data" ]};
     streams := {[ 0%nat := "hello" ]} |}.

Definition stream_handle : IOHandler.t :=
  object_after (IOHandler.set_stream (VObj 0) (fst fresh_handle) sample_world).

Definition file_handle : IOHandler.t :=
  object_after (@IOHandler.set_file sample_runtime "/data/in.txt"
                  (fst fresh_handle) sample_world).

(** A base64 codec for the examples: the standard alphabet with padding.
    The decoder is strict, refusing whatever is not the encoding of some
    text. *)
Definition b64_alphabet : string :=
  "ABCDEFGHIJKLMNOPQRSTUVWXYZabcdefghijklmnopqrstuvwxyz0123456789+/".

Definition sextet_char (n : N) : ascii :=
  default "="%char (String.get (N.to_nat n) b64_alphabet).

Fixpoint char_index (c : ascii) (alphabet : string) (i : N) : option N :=
  match alphabet with
  | EmptyString => if Ascii.eqb c "="%char then Some 64%N else None
  | String a rest => if Ascii.eqb a c then Some i else char_index c rest (i + 1)%N
  end.

Fixpoint encode_bytes (l : list N) : list N :=
  match l with
  | a :: b :: c :: rest =>
      [a / 4; (a mod 4) * 16 + b / 16; (b mod 16) * 4 + c / 64; c mod 64]
        ++ encode_bytes rest
  | [a; b] => [a / 4; (a mod 4) * 16 + b / 16; (b mod 16) * 4; 64]
  | [a] => [a / 4; (a mod 4) * 16; 64; 64]
  | [] => []
  end%N%list.

Fixpoint decode_sextets (l : list N) : option (list N) :=
  match l with
  | [] => Some []
  | a :: b :: c :: d :: rest =>
      if ((a <? 64) && (b <? 64))%N then
        if ((c <? 64) && (d <? 64))%N then
          app [a * 4 + b / 16; (b mod 16) * 16 + c / 4; (c mod 4) * 64 + d]%N
            <$> decode_sextets rest
        else
          match rest with
          | [] =>
              if ((c <? 64) && (d =? 64) && (c mod 4 =? 0))%N
              then Some [a * 4 + b / 16; (b mod 16) * 16 + c / 4]%N
              else if ((c =? 64) && (d =? 64) && (b mod 16 =? 0))%N
              then Some [a * 4 + b / 16]%N
              else None
          | _ => None
          end
      else None
  | _ => None
  end.

Definition sample_b64encode (s : string) : string :=
  string_of_list_ascii
    (map sextet_char (encode_bytes (map N_of_ascii (list_ascii_of_string s)))).

Definition sample_b64decode (s : string) : result string :=
  match mapM (fun c => char_index c b64_alphabet 0%N) (list_ascii_of_string s)
  with
  | Some sextets =>
      match decode_sextets sextets with
      | Some bytes => Return (string_of_list_ascii (map ascii_of_N bytes))
      | None => Raise TypeError
      end
  | None => Raise TypeError
  end.

Definition sample_base64 : Base64 :=
  {| b64decode := sample_b64decode; b64encode := sample_b64encode |}.

(** A runtime whose table of literal types has two entries only. *)
Definition short_runtime : Runtime :=
  {| LITERAL_DATA_TYPES := ["string"; "integer"];
     int_of_text := decimal_of_text;
     float_of_text := sample_float_of_text;
     float_trunc := sample_float_trunc;
     float_of_int := sample_float_of_int;
     float_repr := sample_float_repr;
     object_repr := fun r => "<object " +:+ pretty r +:+ ">";
     abspath := fun p => p;
     read_text := sample_read_text;
     makedirs_error := sample_makedirs_error;
     mkstemp_name := sample_mkstemp_name |}.

(** A configuration, a job, and a site for the examples whose world has
    the working directory of the configuration. *)
Definition sample_configuration : Configuration :=
  {| get_config_value := fun section key =>
       if String.eqb section "server" && String.eqb key "workdir"
       then "/work"
       else if String.eqb section "extra" && String.eqb key "host"
       then "cluster.example.org"
       else "" |}.

Definition sample_job : Slurm.t :=
  {| Slurm.uuid := "1f0e";
     Slurm.dump := fun w =>
       (Return (VStr "/work/1f0e.dump"),
        set_files (<["/work/1f0e.dump" := "job"]> (files w)) w) |}.

(** A library that is installed, and hosts that are all reached. *)
Definition sample_remote : Remote :=
  {| copy_error := fun _ _ => None;
     launch_error := fun _ _ => None |}.

Definition work_world : World :=
  {| files := ∅; dirs := {[ "/tmp"; "/work" ]}; streams := ∅ |}.

Definition sample_site : Site :=
  {| local := work_world; copied := []; launched := [] |}.

(** A site whose world lacks that directory. *)
Definition bare_site : Site :=
  {| local := empty_world; copied := []; launched := [] |}.

(** * Properties *)

(** ** Text *)

Lemma truthy_some (s : string) : s <> "" -> truthy (Some s) = true.
Proof.
  intros Hs. unfold truthy.
  destruct (String.eqb_spec s ""); [contradiction | reflexivity].
Qed.

Lemma lower_nonempty (s t : string) : lower s = t -> t <> "" -> s <> "".
Proof. intros <- Ht ->. now apply Ht. Qed.

Lemma in_all_bytes (c : ascii) : In c all_bytes.
Proof.
  unfold all_bytes. rewrite <- (ascii_nat_embedding c).
  apply in_map, in_seq. pose proof (nat_ascii_bounded c). lia.
Qed.

Lemma lower_agrees_all :
  forallb (fun c => forallb (lower_agrees c) all_bytes) all_bytes = true.
Proof. vm_compute. reflexivity. Qed.

(** Lowering a byte and comparing it with a lower-case letter is comparing
    the two bytes up to case. *)
Lemma lower_ascii_same_letter (c d : ascii) :
  is_lower d = true -> Ascii.eqb (lower_ascii c) d = same_letter c d.
Proof.
  intros Hd.
  pose proof lower_agrees_all as H.
  rewrite forallb_forall in H. specialize (H c (in_all_bytes c)).
  rewrite forallb_forall in H. specialize (H d (in_all_bytes d)).
  unfold lower_agrees in H. rewrite Hd in H. simpl in H.
  now apply Bool.eqb_prop in H.
Qed.

Lemma lower_eqb_caseless (s t : string) :
  all_lower t = true -> String.eqb (lower s) t = caseless_eq s t.
Proof.
  revert t. induction s as [| c s IH]; intros [| d t] Ht; simpl; try reflexivity.
  simpl in Ht. apply andb_prop in Ht as [Hd Ht].
  rewrite (lower_ascii_same_letter c d Hd), (IH t Ht).
  destruct (same_letter c d); reflexivity.
Qed.

(** ** Formats *)

Lemma truthy_or_empty (o : option string) :
  (if truthy o then default "" o else "") = or_empty o.
Proof.
  destruct o as [s |]; simpl; [| reflexivity].
  destruct (String.eqb_spec s ""); simpl; congruence.
Qed.

Lemma encoding_or_empty (f : Format.t) :
  Format.encoding f = or_empty (Format._encoding f).
Proof. apply truthy_or_empty. Qed.

Lemma schema_or_empty (f : Format.t) :
  Format.schema f = or_empty (Format._schema f).
Proof. apply truthy_or_empty. Qed.

Lemma same_as_true_iff (a b : Format.t) :
  Format.same_as a b = true <->
  Format._mime_type a = Format._mime_type b
  /\ or_empty (Format._encoding a) = or_empty (Format._encoding b)
  /\ or_empty (Format._schema a) = or_empty (Format._schema b).
Proof.
  unfold Format.same_as, Format.mime_type.
  rewrite !encoding_or_empty, !schema_or_empty, !andb_true_iff, !String.eqb_eq.
  intuition congruence.
Qed.

Lemma same_as_refl (a : Format.t) : Format.same_as a a = true.
Proof. apply same_as_true_iff. auto. Qed.

Lemma same_as_sym (a b : Format.t) : Format.same_as a b = Format.same_as b a.
Proof.
  destruct (Format.same_as a b) eqn:Hab, (Format.same_as b a) eqn:Hba;
    try reflexivity.
  - apply same_as_true_iff in Hab. rewrite <- Hba. symmetry.
    apply same_as_true_iff. intuition congruence.
  - apply same_as_true_iff in Hba. rewrite <- Hab.
    apply same_as_true_iff. intuition congruence.
Qed.

(** C6. [same_as] is reflexive and symmetric; it holds exactly when the
    media types are equal and the encodings and the schemas are equal once
    an absent one is read as the empty text, so that an unset encoding or
    schema and an empty one compare equal; and two formats whose media
    types differ are never the same, whatever their other fields. *)
Theorem same_as_characterised (a b : Format.t) :
  Format.same_as a a = true
  /\ Format.same_as a b = Format.same_as b a
  /\ (Format.same_as a b = true <->
      Format._mime_type a = Format._mime_type b
      /\ or_empty (Format._encoding a) = or_empty (Format._encoding b)
      /\ or_empty (Format._schema a) = or_empty (Format._schema b))
  /\ or_empty None = ""
  /\ Format.encoding a = or_empty (Format._encoding a)
  /\ Format.schema a = or_empty (Format._schema a)
  /\ (Format.mime_type a <> Format.mime_type b -> Format.same_as a b = false).
Proof.
  split; [apply same_as_refl |].
  split; [apply same_as_sym |].
  split; [apply same_as_true_iff |].
  split; [reflexivity |].
  split; [apply encoding_or_empty |].
  split; [apply schema_or_empty |].
  intros Hne. destruct (Format.same_as a b) eqn:Hab; [| reflexivity].
  apply same_as_true_iff in Hab. destruct Hab as [Hm _]. contradiction.
Qed.

(** A format with unset encoding and schema is the same as one with empty
    ones, and a different media type separates two formats that agree
    elsewhere. *)
Lemma same_as_characterised_witness :
  Format.same_as (Format.__init__ "text/xml" None None None None)
                 (Format.__init__ "text/xml" (Some "") (Some "") (Some 7%nat)
                    (Some ".xml")) = true
  /\ Format.same_as (Format.__init__ "text/xml" None None None None)
                    (Format.__init__ "image/png" None None None None) = false.
Proof.
  split.
  - apply (same_as_characterised
             (Format.__init__ "text/xml" None None None None)
             (Format.__init__ "text/xml" (Some "") (Some "") (Some 7%nat)
                (Some ".xml"))).
    repeat split; reflexivity.
  - apply (same_as_characterised
             (Format.__init__ "text/xml" None None None None)
             (Format.__init__ "image/png" None None None None)).
    simpl. discriminate.
Defined.

(** ** Format negotiation *)

(** The loop finds a format exactly when some supported format is the same
    as the requested one. *)
Lemma supported_loop_true_iff (fs : list Format.t) (r : Format.t) :
  BasicComplex.supported_loop fs r = true <->
  exists f, In f fs /\ Format.same_as r f = true.
Proof.
  induction fs as [| g fs IH]; simpl.
  - split; [discriminate | intros (f & [] & _)].
  - rewrite (same_as_sym g r). destruct (Format.same_as r g) eqn:Hg.
    + split; [| reflexivity]. intros _. exists g. auto.
    + rewrite IH. split.
      * intros (f & Hf & Hs). exists f. auto.
      * intros (f & [<- | Hf] & Hs); [congruence |]. exists f. auto.
Qed.


Lemma set_data_format_unfold (fs : list Format.t) (prior : option Format.t)
    (r : Format.t) :
  BasicComplex.set_data_format r (BasicComplex.mk prior (Some fs)) =
  if BasicComplex.supported_loop fs r
  then (Return tt, BasicComplex.mk (Some r) (Some fs))
  else (Raise (InvalidParameterValue (BasicComplex.not_supported r)),
        BasicComplex.mk prior (Some fs)).
Proof.
  unfold BasicComplex.set_data_format, BasicComplex._is_supported. simpl.
  destruct (BasicComplex.supported_loop fs r); reflexivity.
Qed.



Lemma init_unfold (d : option Format.t) (A : Format.t) (rest : list Format.t) :
  BasicComplex.__init__ d (Some (A :: rest)) =
  match d with
  | None => Return (BasicComplex.mk (Some A) (Some (A :: rest)))
  | Some r =>
      if BasicComplex.supported_loop (A :: rest) r
      then Return (BasicComplex.mk (Some r) (Some (A :: rest)))
      else Raise (InvalidParameterValue (BasicComplex.not_supported r))
  end.
Proof.
  unfold BasicComplex.__init__.
  rewrite set_data_format_unfold.
  replace (BasicComplex.supported_loop (A :: rest) A) with true
    by (simpl; now rewrite same_as_refl).
  destruct d as [r |]; [| reflexivity].
  rewrite set_data_format_unfold.
  destruct (BasicComplex.supported_loop (A :: rest) r); reflexivity.
Qed.

(** C4. A negotiator built from the non-empty supported formats
    [A :: rest] and no explicit format is built without error, and its
    active format is set and is the same as [A] (it is [A]). When an
    explicit format [d] is given as well, the construction returns exactly
    when [d] is the same as some supported format, and the negotiator it
    returns has [d], not [A], as its active format. *)
Theorem init_default_and_explicit (A : Format.t) (rest : list Format.t)
    (d : Format.t) :
  (exists self active,
     BasicComplex.__init__ None (Some (A :: rest)) = Return self
     /\ BasicComplex.data_format self = Some active
     /\ active = A
     /\ Format.same_as active A = true)
  /\ ((exists f, In f (A :: rest) /\ Format.same_as d f = true) ->
      exists self,
        BasicComplex.__init__ (Some d) (Some (A :: rest)) = Return self
        /\ BasicComplex.data_format self = Some d)
  /\ (forall self,
        BasicComplex.__init__ (Some d) (Some (A :: rest)) = Return self ->
        BasicComplex.data_format self = Some d
        /\ exists f, In f (A :: rest) /\ Format.same_as d f = true).
Proof.
  rewrite !init_unfold. split; [| split].
  - exists (BasicComplex.mk (Some A) (Some (A :: rest))), A.
    repeat split. apply same_as_refl.
  - intros Hex. apply supported_loop_true_iff in Hex. rewrite Hex.
    eexists. split; reflexivity.
  - intros self Hself.
    destruct (BasicComplex.supported_loop (A :: rest) d) eqn:Hl;
      [| discriminate].
    injection Hself as <-. split; [reflexivity |].
    now apply supported_loop_true_iff.
Qed.

Lemma init_default_and_explicit_witness :
  exists self,
    BasicComplex.__init__ (Some requested_gml)
      (Some [sample_json; sample_gml]) = Return self
    /\ BasicComplex.data_format self = Some requested_gml.
Proof.
  destruct (init_default_and_explicit sample_json [sample_gml] requested_gml)
    as (_ & Hyes & _).
  apply Hyes. exists sample_gml. split; [simpl; auto | reflexivity].
Defined.

(** ** Handles: files made on request *)

(** What [tempfile.mkstemp] yields: an error, with the world as it was, or a
    path that is not empty and named no file, with the file created
    empty. *)
Lemma tempfile_mkstemp_spec `{RT : Runtime} (prefix suffix : string)
    (d : option string) (w : World) :
  (exists e, tempfile_mkstemp prefix suffix d w = (Raise e, w))
  \/ (exists p,
        tempfile_mkstemp prefix suffix d w
          = (Return p, set_files (<[p := ""]> (files w)) w)
        /\ p <> "" /\ files w !! p = None).
Proof.
  unfold tempfile_mkstemp.
  destruct (mkstemp_name prefix suffix d w) as [name | e].
  - destruct (negb (String.eqb name "") && negb (path_exists name w))
      eqn:Hok.
    + right. exists name. split; [reflexivity |].
      apply andb_prop in Hok as [Hne Hnew].
      apply negb_true_iff in Hne, Hnew.
      split; [now apply String.eqb_neq |].
      unfold path_exists in Hnew. apply orb_false_elim in Hnew as [Hfile _].
      apply bool_decide_eq_false in Hfile.
      now apply eq_None_not_Some.
    + left. eexists. reflexivity.
  - left. eexists. reflexivity.
Qed.

Section Materialisation.
Context `{RT : Runtime}.

Lemma mkstemp_spec (d : option string) (w : World) :
  (exists e, IOHandler.mkstemp d w = (Raise e, w))
  \/ (exists p,
        IOHandler.mkstemp d w
          = (Return p, set_files (<[p := ""]> (files w)) w)
        /\ p <> "" /\ files w !! p = None).
Proof. apply tempfile_mkstemp_spec. Qed.

(** With the cache filled, [get_file] on a stream or value source returns
    the cached path and touches nothing. *)
Lemma get_file_cached (self : IOHandler.t) (w : World) (p : string) :
  IOHandler.source_type self = Some STREAM
  \/ IOHandler.source_type self = Some DATA ->
  IOHandler._tempfile self = Some p -> p <> "" ->
  IOHandler.get_file self w = (Return (VStr p), self, w).
Proof.
  intros Hk Hc Hp. unfold IOHandler.get_file.
  rewrite Hc, (truthy_some p Hp). simpl.
  destruct Hk as [-> | ->]; reflexivity.
Qed.

(** With the cache empty, when [mkstemp] raises, [get_file] on a stream or
    value source raises the same and touches nothing. *)
Lemma get_file_no_file (self : IOHandler.t) (w : World) (e : exn) :
  IOHandler.source_type self = Some STREAM
  \/ IOHandler.source_type self = Some DATA ->
  IOHandler._tempfile self = None ->
  IOHandler.mkstemp (IOHandler.get_workdir self) w = (Raise e, w) ->
  IOHandler.get_file self w = (Raise e, self, w).
Proof.
  intros Hk Hc Hmk. unfold IOHandler.get_file. rewrite Hc, Hmk.
  destruct Hk as [-> | ->]; reflexivity.
Qed.

(** The first [get_file] on a text value, when [mkstemp] gives the path
    [p]: the file [p] now holds the text, and [p] is cached and
    returned. *)
Lemma get_file_text_value (self : IOHandler.t) (w : World) (c p : string) :
  IOHandler.source_type self = Some DATA ->
  IOHandler.source self = VStr c ->
  IOHandler._tempfile self = None ->
  IOHandler.mkstemp (IOHandler.get_workdir self) w
    = (Return p, set_files (<[p := ""]> (files w)) w) ->
  IOHandler.get_file self w =
    (Return (VStr p), IOHandler.set_tempfile (Some p) self,
     set_files (<[p := c]> (files w)) w).
Proof.
  intros Hk Hsrc Hc Hmk.
  unfold IOHandler.get_file. rewrite Hk, Hc, Hsrc, Hmk.
  cbn [truthy]. unfold open_w, file_write, set_files. cbn [files dirs streams].
  rewrite lookup_insert_eq, !insert_insert_eq. reflexivity.
Qed.

(** The first [get_file] on a stream, when [mkstemp] gives the path [p]:
    the same, and the stream is left exhausted. *)
Lemma get_file_stream (self : IOHandler.t) (w : World) (r : nat)
    (c p : string) :
  IOHandler.source_type self = Some STREAM ->
  IOHandler.source self = VObj r ->
  streams w !! r = Some c ->
  IOHandler._tempfile self = None ->
  IOHandler.mkstemp (IOHandler.get_workdir self) w
    = (Return p, set_files (<[p := ""]> (files w)) w) ->
  IOHandler.get_file self w =
    (Return (VStr p), IOHandler.set_tempfile (Some p) self,
     {| files := <[p := c]> (files w); dirs := dirs w;
        streams := <[r := ""]> (streams w) |}).
Proof.
  intros Hk Hsrc Hr Hc Hmk.
  unfold IOHandler.get_file. rewrite Hk, Hc, Hsrc, Hmk.
  cbn [truthy]. unfold open_w, stream_read, file_write, set_files, set_streams.
  cbn [files dirs streams]. rewrite Hr. cbn [files dirs streams].
  rewrite lookup_insert_eq, !insert_insert_eq. reflexivity.
Qed.

(** A first [get_file] that returns: [mkstemp] gave the path returned,
    which is not empty and named no file, and the source is text, as a
    value or in a stream. *)
Lemma get_file_returns_text (self self1 : IOHandler.t) (w w1 : World)
    (v : pyval) :
  IOHandler.source_type self = Some STREAM
  \/ IOHandler.source_type self = Some DATA ->
  IOHandler._tempfile self = None ->
  IOHandler.get_file self w = (Return v, self1, w1) ->
  exists p c,
    v = VStr p /\ p <> "" /\ files w !! p = None
    /\ IOHandler.mkstemp (IOHandler.get_workdir self) w
         = (Return p, set_files (<[p := ""]> (files w)) w)
    /\ ((IOHandler.source_type self = Some DATA
         /\ IOHandler.source self = VStr c)
        \/ (IOHandler.source_type self = Some STREAM
            /\ exists r, IOHandler.source self = VObj r
                         /\ streams w !! r = Some c)).
Proof.
  intros Hk Hc Hget. unfold IOHandler.get_file in Hget.
  rewrite Hc in Hget. cbn [truthy] in Hget.
  destruct (mkstemp_spec (IOHandler.get_workdir self) w)
    as [[e Hmk] | (p & Hmk & Hne & Hfresh)]; rewrite Hmk in Hget.
  { destruct Hk as [Hk | Hk]; rewrite Hk in Hget; discriminate Hget. }
  exists p.
  destruct Hk as [Hk | Hk]; rewrite Hk in Hget.
  - unfold stream_read in Hget.
    destruct (IOHandler.source self) as [| | | | | r] eqn:Hsrc;
      try discriminate Hget.
    cbn [open_w set_files streams] in Hget.
    destruct (streams w !! r) as [c |] eqn:Hr; [| discriminate Hget].
    exists c. cbn in Hget. injection Hget as <- _ _.
    repeat (split; [assumption || reflexivity |]).
    right. split; [exact Hk |]. exists r. auto.
  - destruct (IOHandler.source self) as [| c | | | |] eqn:Hsrc;
      try discriminate Hget.
    exists c. cbn in Hget. injection Hget as <- _ _.
    repeat (split; [assumption || reflexivity |]).
    left. auto.
Qed.

End Materialisation.

(** ** Handles: the representations *)

Section Handles.
Context `{RT : Runtime}.

(** C2, as the code has it. [get_memory_object] always raises, on every
    handle and in every world, the exception whose message says that the
    memory object is not implemented, and leaves the handle and the world
    as they were. [set_memory_object] never raises: for every argument it
    returns [None] and leaves the world as it was, and of the handle it
    changes the source type, which becomes [MEMORY], and nothing else. *)
Theorem memory_object_calls (self : IOHandler.t) (w : World) (x : pyval) :
  IOHandler.get_memory_object self w
    = (Raise (Exception
         "setmemory_object not implemented, Soeren promissed to implement at WPS Workshop on 23rd of January 2014"),
       self, w)
  /\ (exists msg,
        outcome (IOHandler.get_memory_object self w) = Raise (Exception msg)
        /\ String.index 0 "not implemented" msg = Some 17%nat)
  /\ IOHandler.set_memory_object x self w
       = (Return VNone, IOHandler.set_source_type (Some MEMORY) self, w)
  /\ (let self' := object_after (IOHandler.set_memory_object x self w) in
      IOHandler.source_type self' = Some MEMORY
      /\ IOHandler.source self' = IOHandler.source self
      /\ IOHandler._tempfile self' = IOHandler._tempfile self
      /\ IOHandler._workdir self' = IOHandler._workdir self).
Proof.
  split; [reflexivity |]. split.
  - eexists. split; [reflexivity |]. vm_compute. reflexivity.
  - split; [reflexivity |]. repeat split.
Qed.

(** C9. On a handle whose source type is unset, [get_data], [get_stream]
    and [get_file] each return [None], raise nothing, and leave the handle
    and the world as they were. *)
Theorem getters_on_unset_source (self : IOHandler.t) (w : World) :
  IOHandler.source_type self = None ->
  IOHandler.get_data self w = (Return VNone, self, w)
  /\ IOHandler.get_stream self w = (Return VNone, self, w)
  /\ IOHandler.get_file self w = (Return VNone, self, w).
Proof.
  intros Hk. unfold IOHandler.get_data, IOHandler.get_stream,
    IOHandler.get_file.
  rewrite Hk. repeat split.
Qed.

(** No setter touches the cached file path. *)
Lemma setters_keep_tempfile (self : IOHandler.t) (w : World) (x : pyval)
    (name : string) :
  IOHandler._tempfile (object_after (IOHandler.set_data x self w))
    = IOHandler._tempfile self
  /\ IOHandler._tempfile (object_after (IOHandler.set_stream x self w))
      = IOHandler._tempfile self
  /\ IOHandler._tempfile (object_after (IOHandler.set_file name self w))
      = IOHandler._tempfile self
  /\ IOHandler._tempfile (object_after (IOHandler.set_memory_object x self w))
      = IOHandler._tempfile self.
Proof. repeat split. Qed.

(** C10. Let a first [get_file] on a stream or value source have returned
    the path [p]. Then the file [p] holds the text of that source, and for
    any [x], after [set_data x] or [set_stream x] the cache still holds [p]
    and [get_file] returns [p] again without touching the world, so the
    file still holds the old text and no file is made from the new source;
    [set_file] leaves the cache alone as well. *)
Theorem setters_keep_materialised_file (self self1 : IOHandler.t)
    (w w1 : World) (p : string) (x : pyval) (name : string) :
  IOHandler.source_type self = Some STREAM
  \/ IOHandler.source_type self = Some DATA ->
  IOHandler._tempfile self = None ->
  IOHandler.get_file self w = (Return (VStr p), self1, w1) ->
  let a := object_after (IOHandler.set_data x self1 w1) in
  let b := object_after (IOHandler.set_stream x self1 w1) in
  let f := object_after (IOHandler.set_file name self1 w1) in
  (exists c,
     files w1 !! p = Some c
     /\ (IOHandler.source self = VStr c
         \/ exists r, IOHandler.source self = VObj r
                      /\ streams w !! r = Some c))
  /\ world_after (IOHandler.set_data x self1 w1) = w1
  /\ IOHandler.source a = x
  /\ IOHandler._tempfile a = Some p
  /\ IOHandler.get_file a w1 = (Return (VStr p), a, w1)
  /\ world_after (IOHandler.set_stream x self1 w1) = w1
  /\ IOHandler.source b = x
  /\ IOHandler._tempfile b = Some p
  /\ IOHandler.get_file b w1 = (Return (VStr p), b, w1)
  /\ IOHandler._tempfile f = Some p.
Proof.
  intros Hk Hc Hget a b f.
  assert (Hp : p <> "" /\ IOHandler._tempfile self1 = Some p
               /\ exists c, files w1 !! p = Some c
                    /\ (IOHandler.source self = VStr c
                        \/ exists r, IOHandler.source self = VObj r
                                     /\ streams w !! r = Some c)).
  { destruct (get_file_returns_text self self1 w w1 (VStr p) Hk Hc Hget)
      as (q & c & Hq & Hne & _ & Hmk & [[Hd Hsrc] | [Hs (r & Hsrc & Hr)]]);
      injection Hq as <-.
    - rewrite (get_file_text_value self w c p Hd Hsrc Hc Hmk) in Hget.
      injection Hget as <- <-.
      split; [exact Hne |]. split; [reflexivity |].
      exists c. split; [apply lookup_insert_eq | auto].
    - rewrite (get_file_stream self w r c p Hs Hsrc Hr Hc Hmk) in Hget.
      injection Hget as <- <-.
      split; [exact Hne |]. split; [reflexivity |].
      exists c. split; [apply lookup_insert_eq |]. right. exists r. auto. }
  destruct Hp as (Hne & Hcache & Hold).
  split; [exact Hold |].
  split; [reflexivity |]. split; [reflexivity |]. split; [exact Hcache |].
  split; [apply get_file_cached; auto |].
  split; [reflexivity |]. split; [reflexivity |]. split; [exact Hcache |].
  split; [apply get_file_cached; auto | exact Hcache].
Qed.

End Handles.

(** C2, as stated, fails: on a new handle [set_memory_object] returns
    without raising, and the handle it leaves differs from the one it was
    called on. *)
Lemma set_memory_object_does_not_fail :
  ~ (exists e,
       outcome (IOHandler.set_memory_object (VObj 0) (fst fresh_handle)
                  (snd fresh_handle)) = Raise e)
  /\ object_after (IOHandler.set_memory_object (VObj 0) (fst fresh_handle)
                     (snd fresh_handle)) <> fst fresh_handle.
Proof.
  split.
  - intros [e He]. discriminate He.
  - intros Heq. discriminate Heq.
Qed.

Lemma getters_on_unset_source_witness :
  @IOHandler.get_data sample_runtime (fst fresh_handle) (snd fresh_handle)
    = (Return VNone, fst fresh_handle, snd fresh_handle)
  /\ @IOHandler.get_stream sample_runtime (fst fresh_handle) (snd fresh_handle)
      = (Return VNone, fst fresh_handle, snd fresh_handle)
  /\ @IOHandler.get_file sample_runtime (fst fresh_handle) (snd fresh_handle)
      = (Return VNone, fst fresh_handle, snd fresh_handle).
Proof.
  apply (@getters_on_unset_source sample_runtime (fst fresh_handle)
           (snd fresh_handle)).
  reflexivity.
Defined.

Lemma setters_keep_materialised_file_witness :
  let self1 := object_after text_first in
  let w1 := world_after text_first in
  let a := object_after (IOHandler.set_data (VStr "bye") self1 w1) in
  IOHandler.source a = VStr "bye"
  /\ @IOHandler.get_file sample_runtime a w1 = (Return (VStr "/tmp/tmp"), a, w1).
Proof.
  intros self1 w1 a.
  destruct (@setters_keep_materialised_file sample_runtime text_handle self1
              (snd fresh_handle) w1 "/tmp/tmp" (VStr "bye") "out.txt")
    as (_ & _ & Hsrc & _ & Hget & _).
  - right. reflexivity.
  - reflexivity.
  - vm_compute. reflexivity.
  - split; [exact Hsrc | exact Hget].
Defined.

(** ** Handles: a value that is not text *)

(** The first [get_file] on a value that is not text never returns a
    path and caches none. When [mkstemp] makes a file, the write is refused
    after the file was made, so [TypeError] is raised and an empty file is
    left behind; when [mkstemp] raises, that error is raised and no file is
    made. *)
Lemma get_file_value_not_text `{RT : Runtime} (self : IOHandler.t) (w : World) :
  IOHandler.source_type self = Some DATA ->
  (forall c, IOHandler.source self <> VStr c) ->
  IOHandler._tempfile self = None ->
  (exists e,
     IOHandler.mkstemp (IOHandler.get_workdir self) w = (Raise e, w)
     /\ IOHandler.get_file self w = (Raise e, self, w))
  \/ (exists p,
        IOHandler.mkstemp (IOHandler.get_workdir self) w
          = (Return p, set_files (<[p := ""]> (files w)) w)
        /\ files w !! p = None
        /\ IOHandler.get_file self w =
             (Raise TypeError, self, set_files (<[p := ""]> (files w)) w)).
Proof.
  intros Hk Hsrc Hc.
  destruct (mkstemp_spec (IOHandler.get_workdir self) w)
    as [[e Hmk] | (p & Hmk & _ & Hfresh)].
  - left. exists e. split; [exact Hmk |].
    apply get_file_no_file; auto.
  - right. exists p. split; [exact Hmk |]. split; [exact Hfresh |].
    unfold IOHandler.get_file. rewrite Hk, Hc, Hmk. cbn [truthy].
    unfold open_w, file_write, set_files. cbn [files dirs streams].
    rewrite insert_insert_eq.
    destruct (IOHandler.source self) as [| c | | | |]; try reflexivity.
    now destruct (Hsrc c).
Qed.

(** C5, on the handle whose one set call stored the number 5. The first
    [get_file] raises [TypeError]: it leaves a new file, which is empty and
    not the text "5", and caches no path. The second [get_file] raises again
    and leaves a second new file. [get_stream] on the same handle does give
    the text form "5" of the value. *)
Theorem get_file_of_number_value :
  IOHandler.source_type number_handle = Some DATA
  /\ IOHandler.source number_handle = VInt 5
  /\ @text_type sample_runtime (VInt 5) = "5"
  /\ outcome number_first = Raise TypeError
  /\ IOHandler._tempfile (object_after number_first) = None
  /\ map_to_list (files (snd fresh_handle)) = []
  /\ map_to_list (files (world_after number_first)) = [("/tmp/tmp", "")]
  /\ outcome number_second = Raise TypeError
  /\ map_to_list (files (world_after number_second))
       = [("/tmp/tmp0", ""); ("/tmp/tmp", "")]
  /\ (let s := @IOHandler.get_stream sample_runtime number_handle
                 (snd fresh_handle) in
      outcome s = Return (VObj 0)
      /\ streams (world_after s) !! 0%nat = Some "5").
Proof. vm_compute. repeat split. Qed.

(** On a text value the claim of C5 holds wherever [mkstemp] makes a
    file: the first [get_file] makes one file holding the text, and every
    later one returns the same path and makes none. Where [mkstemp] raises,
    [get_file] raises the same and nothing is touched. *)
Lemma get_file_text_value_once `{RT : Runtime} (self : IOHandler.t) (w : World)
    (c : string) :
  IOHandler.source_type self = Some DATA ->
  IOHandler.source self = VStr c ->
  IOHandler._tempfile self = None ->
  (exists e,
     IOHandler.mkstemp (IOHandler.get_workdir self) w = (Raise e, w)
     /\ IOHandler.get_file self w = (Raise e, self, w))
  \/ (exists p,
        let first := IOHandler.get_file self w in
        outcome first = Return (VStr p)
        /\ files w !! p = None
        /\ files (world_after first) = <[p := c]> (files w)
        /\ forall w', IOHandler.get_file (object_after first) w'
                      = (Return (VStr p), object_after first, w')).
Proof.
  intros Hk Hsrc Hc.
  destruct (mkstemp_spec (IOHandler.get_workdir self) w)
    as [[e Hmk] | (p & Hmk & Hne & Hfresh)].
  - left. exists e. split; [exact Hmk |]. apply get_file_no_file; auto.
  - right. exists p. cbn zeta.
    rewrite (get_file_text_value self w c p Hk Hsrc Hc Hmk).
    repeat split; try assumption.
    intros w'. apply get_file_cached; auto.
Qed.

(** ** Literal handles *)

Lemma py_in_true_iff (x : string) (l : list string) :
  py_in x l = true <-> In x l.
Proof.
  induction l as [| y l IH]; simpl.
  - split; [discriminate | contradiction].
  - destruct (String.eqb_spec y x) as [-> | Hne].
    + split; auto.
    + rewrite IH. split; [auto | intros [Hy | Hin]; [contradiction | exact Hin]].
Qed.

Section Literal.
Context `{RT : Runtime}.

(** What [set_data] stores: the handle with [v] as its value. *)
Lemma set_data_recognised (self : SimpleHandler.t) (w : World) (dt : string)
    (data : pyval) :
  SimpleHandler.data_type self = Some dt ->
  dt <> "" ->
  In (lower dt) LITERAL_DATA_TYPES ->
  SimpleHandler.set_data data self w =
  match SimpleHandler.convert (lower dt) data with
  | Raise e => (Raise e, self, w)
  | Return v =>
      (Return VNone,
       SimpleHandler.set_io
         (object_after (IOHandler.set_data v (SimpleHandler.io self) w)) self,
       w)
  end.
Proof.
  intros Hdt Hne Hin. unfold SimpleHandler.set_data.
  rewrite Hdt, (truthy_some dt Hne). change (default "" (Some dt)) with dt.
  apply py_in_true_iff in Hin. rewrite Hin.
  destruct (SimpleHandler.convert (lower dt) data); reflexivity.
Qed.

(** With no data type, or one outside the table, [set_data] does nothing
    at all: the value is not stored. *)
Lemma set_data_unrecognised (self : SimpleHandler.t) (w : World)
    (data : pyval) :
  SimpleHandler.data_type self = None
  \/ SimpleHandler.data_type self = Some ""
  \/ (exists dt, SimpleHandler.data_type self = Some dt
                 /\ ~ In (lower dt) LITERAL_DATA_TYPES) ->
  SimpleHandler.set_data data self w = (Return VNone, self, w).
Proof.
  unfold SimpleHandler.set_data.
  intros [-> | [-> | (dt & -> & Hnot)]]; try reflexivity.
  destruct (truthy (Some dt)); [| reflexivity]. change (default "" (Some dt)) with dt.
  destruct (py_in (lower dt) LITERAL_DATA_TYPES) eqn:Hin; [| reflexivity].
  apply py_in_true_iff in Hin. contradiction.
Qed.

(** C7. On a literal handle whose data type is boolean (in any case of the
    letters), [set_data] on any text [t] raises nothing and stores a
    boolean: [True] exactly when [t] equals "true" up to the case of its
    letters, [False] for every other text; [get_data] then returns that
    boolean. *)
Theorem set_data_boolean (self : SimpleHandler.t) (w : World) (dt t : string) :
  SimpleHandler.data_type self = Some dt ->
  lower dt = "boolean" ->
  In "boolean" LITERAL_DATA_TYPES ->
  let r := SimpleHandler.set_data (VStr t) self w in
  outcome r = Return VNone
  /\ world_after r = w
  /\ IOHandler.source_type (SimpleHandler.io (object_after r)) = Some DATA
  /\ IOHandler.source (SimpleHandler.io (object_after r))
       = VBool (caseless_eq t "true")
  /\ SimpleHandler.get_data (object_after r) w
       = (Return (VBool (caseless_eq t "true")), object_after r, w).
Proof.
  intros Hdt Hlow Hin r. unfold r.
  rewrite (set_data_recognised self w dt (VStr t) Hdt).
  - rewrite Hlow. unfold SimpleHandler.convert.
    change (String.eqb "boolean" "string") with false.
    change (String.eqb "boolean" "integer") with false.
    change (String.eqb "boolean" "float") with false.
    change (String.eqb "boolean" "boolean") with true. cbn iota.
    rewrite (lower_eqb_caseless t "true" eq_refl).
    destruct (caseless_eq t "true"); repeat split.
  - apply (lower_nonempty dt "boolean" Hlow). discriminate.
  - rewrite Hlow. exact Hin.
Qed.

(** C8. On a literal handle whose data type is integer or float (in any
    case of the letters), [set_data] on a text that [int], respectively
    [float], cannot read raises the conversion error ([ValueError]) and
    leaves the handle and the world as they were; on a text that can be
    read it raises nothing and stores the number read, which [get_data]
    then returns. *)
Theorem set_data_numeric (self : SimpleHandler.t) (w : World) (dt t : string) :
  SimpleHandler.data_type self = Some dt ->
  In (lower dt) LITERAL_DATA_TYPES ->
  let stored v :=
    SimpleHandler.set_io
      (object_after (IOHandler.set_data v (SimpleHandler.io self) w)) self in
  (lower dt = "integer" ->
   (int_of_text t = None ->
    SimpleHandler.set_data (VStr t) self w = (Raise ValueError, self, w))
   /\ (forall z, int_of_text t = Some z ->
       SimpleHandler.set_data (VStr t) self w
         = (Return VNone, stored (VInt z), w)
       /\ SimpleHandler.get_data (stored (VInt z)) w
          = (Return (VInt z), stored (VInt z), w)))
  /\ (lower dt = "float" ->
      (float_of_text t = None ->
       SimpleHandler.set_data (VStr t) self w = (Raise ValueError, self, w))
      /\ (forall b, float_of_text t = Some b ->
          SimpleHandler.set_data (VStr t) self w
            = (Return VNone, stored (VFloat b), w)
          /\ SimpleHandler.get_data (stored (VFloat b)) w
             = (Return (VFloat b), stored (VFloat b), w))).
Proof.
  intros Hdt Hin stored.
  assert (Hne : lower dt <> "" -> dt <> "")
    by (intros H; now apply (lower_nonempty dt (lower dt))).
  split; intros Hlow.
  - rewrite (set_data_recognised self w dt (VStr t) Hdt);
      [| apply Hne; rewrite Hlow; discriminate | exact Hin].
    rewrite Hlow. unfold SimpleHandler.convert.
    change (String.eqb "integer" "string") with false.
    change (String.eqb "integer" "integer") with true. cbn iota.
    unfold py_int. split.
    + intros ->. reflexivity.
    + intros z ->. split; reflexivity.
  - rewrite (set_data_recognised self w dt (VStr t) Hdt);
      [| apply Hne; rewrite Hlow; discriminate | exact Hin].
    rewrite Hlow. unfold SimpleHandler.convert.
    change (String.eqb "float" "string") with false.
    change (String.eqb "float" "integer") with false.
    change (String.eqb "float" "float") with true. cbn iota.
    unfold py_float. split.
    + intros ->. reflexivity.
    + intros b ->. split; reflexivity.
Qed.

End Literal.

Lemma set_data_boolean_witness :
  let yes := @SimpleHandler.set_data sample_runtime (VStr "TRUE")
               (typed_handle "boolean") empty_world in
  let no := @SimpleHandler.set_data sample_runtime (VStr "banana")
              (typed_handle "Boolean") empty_world in
  @SimpleHandler.get_data sample_runtime (object_after yes) empty_world
    = (Return (VBool true), object_after yes, empty_world)
  /\ @SimpleHandler.get_data sample_runtime (object_after no) empty_world
     = (Return (VBool false), object_after no, empty_world).
Proof.
  split.
  - apply (@set_data_boolean sample_runtime (typed_handle "boolean")
             empty_world "boolean" "TRUE");
      [reflexivity | reflexivity | simpl; auto].
  - apply (@set_data_boolean sample_runtime (typed_handle "Boolean")
             empty_world "Boolean" "banana");
      [reflexivity | reflexivity | simpl; auto].
Defined.

Lemma set_data_numeric_witness :
  @SimpleHandler.set_data sample_runtime (VStr "12a")
      (typed_handle "integer") empty_world
    = (Raise ValueError, typed_handle "integer", empty_world)
  /\ outcome (@SimpleHandler.set_data sample_runtime (VStr " -12")
                (typed_handle "Integer") empty_world) = Return VNone
  /\ @SimpleHandler.set_data sample_runtime (VStr "one and a half")
        (typed_handle "float") empty_world
      = (Raise ValueError, typed_handle "float", empty_world)
  /\ outcome (@SimpleHandler.set_data sample_runtime (VStr "1.5")
                (typed_handle "float") empty_world) = Return VNone.
Proof.
  split; [| split; [| split]].
  - destruct (@set_data_numeric sample_runtime (typed_handle "integer")
                empty_world "integer" "12a" eq_refl) as [Hint _];
      [simpl; auto |].
    destruct (Hint eq_refl) as [Hbad _]. apply Hbad. reflexivity.
  - destruct (@set_data_numeric sample_runtime (typed_handle "Integer")
                empty_world "Integer" " -12" eq_refl) as [Hint _];
      [simpl; auto |].
    destruct (Hint eq_refl) as [_ Hgood].
    destruct (Hgood (-12) eq_refl) as [Hset _]. rewrite Hset. reflexivity.
  - destruct (@set_data_numeric sample_runtime (typed_handle "float")
                empty_world "float" "one and a half" eq_refl) as [_ Hfl];
      [simpl; auto |].
    destruct (Hfl eq_refl) as [Hbad _]. apply Hbad. reflexivity.
  - destruct (@set_data_numeric sample_runtime (typed_handle "float")
                empty_world "float" "1.5" eq_refl) as [_ Hfl];
      [simpl; auto |].
    destruct (Hfl eq_refl) as [_ Hgood].
    destruct (Hgood 4609434218613702656 eq_refl) as [Hset _].
    rewrite Hset. reflexivity.
Defined.

(** C1, on the literal handle made with no data type and on the one made
    with a data type outside the table. [set_data] raises nothing and
    stores nothing: the handle is as it was and [get_data] returns [None],
    not the value that was set. The setter of the base class, called on the
    same handle, does store the value. *)
Theorem set_data_without_type_drops_value :
  SimpleHandler.data_type (fst untyped_handle) = None
  /\ @SimpleHandler.set_data sample_runtime (VStr "abc") (fst untyped_handle)
       (snd untyped_handle)
     = (Return VNone, fst untyped_handle, snd untyped_handle)
  /\ @SimpleHandler.get_data sample_runtime (fst untyped_handle)
       (snd untyped_handle)
     = (Return VNone, fst untyped_handle, snd untyped_handle)
  /\ ~ In "colour" (@LITERAL_DATA_TYPES sample_runtime)
  /\ @SimpleHandler.set_data sample_runtime (VStr "abc") (typed_handle "colour")
       empty_world
     = (Return VNone, typed_handle "colour", empty_world)
  /\ @SimpleHandler.get_data sample_runtime (typed_handle "colour") empty_world
     = (Return VNone, typed_handle "colour", empty_world)
  /\ outcome
       (@IOHandler.get_data sample_runtime
          (object_after
             (IOHandler.set_data (VStr "abc")
                (SimpleHandler.io (fst untyped_handle)) (snd untyped_handle)))
          (snd untyped_handle))
     = Return (VStr "abc").
Proof.
  repeat split.
  intros Hin. simpl in Hin.
  repeat (destruct Hin as [Hin | Hin]; [discriminate Hin |]). exact Hin.
Qed.

(** * More of the code *)

(** ** The description of a format *)

(** X1. Two formats have the same description exactly when they are the
    same for negotiation: the element [describe_xml] builds carries the
    media type, the encoding and the schema and nothing else, and leaves
    out an encoding or a schema that is unset or empty. *)
Theorem describe_xml_eq_iff_same_as (a b : Format.t) :
  Format.describe_xml a = Format.describe_xml b <-> Format.same_as a b = true.
Proof.
  rewrite same_as_true_iff, <- !encoding_or_empty, <- !schema_or_empty.
  unfold Format.describe_xml, parent_element, text_element, element_append.
  change (Format.mime_type a) with (Format._mime_type a).
  change (Format.mime_type b) with (Format._mime_type b).
  destruct (String.eqb_spec (Format.encoding a) "") as [Ea | Ea],
           (String.eqb_spec (Format.encoding b) "") as [Eb | Eb],
           (String.eqb_spec (Format.schema a) "") as [Sa | Sa],
           (String.eqb_spec (Format.schema b) "") as [Sb | Sb];
    simpl; (split; [intros [= ] | intros (Hm & He & Hs)]);
    first [ repeat split; congruence | congruence ].
Qed.

Lemma describe_xml_unfold (f : Format.t) :
  Format.describe_xml f =
  Element "Format" None []
    (text_element "MimeType" (Format._mime_type f)
     :: (if String.eqb (Format.encoding f) "" then []
         else [text_element "Encoding" (Format.encoding f)])
     ++ (if String.eqb (Format.schema f) "" then []
         else [text_element "Schema" (Format.schema f)]))%list.
Proof.
  unfold Format.describe_xml, parent_element, element_append.
  destruct (String.eqb (Format.encoding f) ""),
           (String.eqb (Format.schema f) ""); reflexivity.
Qed.

Lemma or_empty_set (o : option string) (e : string) :
  or_empty o = e /\ e <> "" <-> o = Some e /\ e <> "".
Proof.
  destruct o as [x |]; simpl; split; intros [H Hne]; split;
    congruence.
Qed.

Lemma in_optional_child (tag x e : string) :
  In (text_element tag e)
     (if String.eqb x "" then [] else [text_element tag x])
  <-> x = e /\ e <> "".
Proof.
  unfold text_element. destruct (String.eqb_spec x "") as [-> | Hx]; simpl.
  - split; [contradiction | intros [<- Hne]; now apply Hne].
  - split.
    + intros [[= ->] | []]. auto.
    + intros [-> _]. auto.
Qed.

Lemma not_in_optional_child (tag tag' x e : string) :
  tag <> tag' ->
  ~ In (text_element tag e)
       (if String.eqb x "" then [] else [text_element tag' x]).
Proof.
  unfold text_element. intros Hne. destruct (String.eqb x ""); simpl.
  - auto.
  - intros [[= Ht _] | []]. now apply Hne.
Qed.

(** X2. The description is a [Format] element whose first child is the
    [MimeType]; an [Encoding] child with text [e] is present exactly when
    the encoding attribute holds the non-empty text [e], and likewise for
    [Schema]; so a format whose encoding and schema are unset or empty is
    described by the [MimeType] child alone. *)
Theorem describe_xml_children (f : Format.t) (e : string) :
  tag_of (Format.describe_xml f) = "Format"
  /\ text_of (Format.describe_xml f) = None
  /\ hd_error (children_of (Format.describe_xml f))
       = Some (text_element "MimeType" (Format._mime_type f))
  /\ (In (text_element "Encoding" e) (children_of (Format.describe_xml f))
      <-> Format._encoding f = Some e /\ e <> "")
  /\ (In (text_element "Schema" e) (children_of (Format.describe_xml f))
      <-> Format._schema f = Some e /\ e <> "")
  /\ (or_empty (Format._encoding f) = "" ->
      or_empty (Format._schema f) = "" ->
      children_of (Format.describe_xml f)
        = [text_element "MimeType" (Format._mime_type f)]).
Proof.
  rewrite describe_xml_unfold. cbn [tag_of text_of children_of hd_error].
  do 3 (split; [reflexivity |]).
  split; [| split].
  - rewrite <- or_empty_set, <- encoding_or_empty.
    cbn [In]. rewrite in_app_iff, in_optional_child.
    split; [| tauto].
    intros [Hm | [Henc | Hsch]]; [discriminate Hm | exact Henc |].
    apply not_in_optional_child in Hsch; [contradiction | discriminate].
  - rewrite <- or_empty_set, <- schema_or_empty.
    cbn [In]. rewrite in_app_iff, in_optional_child.
    split; [| tauto].
    intros [Hm | [Henc | Hsch]]; [discriminate Hm | | exact Hsch].
    apply not_in_optional_child in Henc; [contradiction | discriminate].
  - rewrite <- encoding_or_empty, <- schema_or_empty. intros -> ->.
    reflexivity.
Qed.

Lemma describe_xml_children_witness :
  children_of (Format.describe_xml sample_gml)
    = [text_element "MimeType" "application/gml+xml"].
Proof.
  apply (describe_xml_children sample_gml ""); reflexivity.
Defined.

(** ** The table of formats *)

Lemma dict_get_in {A : Type} (key : string) (d : list (string * A)) (v : A) :
  dict_get key d = Some v -> In (key, v) d.
Proof.
  induction d as [| [k x] d IH]; simpl; [discriminate |].
  destruct (String.eqb_spec k key) as [-> | Hne].
  - intros [= ->]. auto.
  - auto.
Qed.

Lemma get_format_known (frmt : string) (validator : option nat)
    (fd : FormatDefinition.t) :
  dict_get frmt FORMATS = Some fd ->
  get_format frmt validator =
    Format.mk (FormatDefinition.mime_type fd) None (FormatDefinition.schema fd)
      validator (Some (FormatDefinition.extension fd)).
Proof. intros H. unfold get_format. rewrite H. reflexivity. Qed.

Lemma get_format_unknown (frmt : string) (validator : option nat) :
  dict_get frmt FORMATS = None ->
  get_format frmt validator = Format.mk "None" None None validator None.
Proof. intros H. unfold get_format. rewrite H. reflexivity. Qed.

(** X3. [get_format] always attaches the validator it is given, and its
    result has no encoding and no schema. The media type of the result is
    the text "None" exactly when the name is no field of [FORMATS]: the
    sentinel cannot be mistaken for a format of the table, and a name in
    the wrong case is not found. *)
Theorem get_format_sentinel (frmt : string) (validator : option nat) :
  Format.validate (get_format frmt validator) = validator
  /\ Format.encoding (get_format frmt validator) = ""
  /\ Format.schema (get_format frmt validator) = ""
  /\ (Format.mime_type (get_format frmt validator) = "None"
      <-> dict_get frmt FORMATS = None)
  /\ dict_get "gml" FORMATS = None.
Proof.
  destruct (dict_get frmt FORMATS) as [fd |] eqn:Hget.
  - rewrite (get_format_known frmt validator fd Hget).
    apply dict_get_in in Hget. simpl in Hget.
    repeat (destruct Hget as [[= <- <-] | Hget];
            [repeat split; try reflexivity; discriminate |]).
    contradiction.
  - rewrite (get_format_unknown frmt validator Hget). repeat split.
Qed.

Lemma same_as_get_format (n1 n2 : string) (v1 v2 : option nat) :
  dict_get n1 FORMATS <> None ->
  dict_get n2 FORMATS <> None ->
  (Format.same_as (get_format n1 v1) (get_format n2 v2) = true <-> n1 = n2).
Proof.
  intros H1 H2.
  destruct (dict_get n1 FORMATS) as [fd1 |] eqn:Hget1; [| contradiction].
  destruct (dict_get n2 FORMATS) as [fd2 |] eqn:Hget2; [| contradiction].
  rewrite (get_format_known n1 v1 fd1 Hget1), (get_format_known n2 v2 fd2 Hget2).
  apply dict_get_in in Hget1, Hget2. simpl in Hget1, Hget2.
  repeat (destruct Hget1 as [[= <- <-] | Hget1];
          [repeat (destruct Hget2 as [[= <- <-] | Hget2];
                   [vm_compute; split; first [reflexivity | discriminate] |]);
           contradiction |]).
  contradiction.
Qed.

(** X4. Two names of the table give formats that are the same for
    negotiation only when they are one name: the formats of the table are
    told apart by [same_as], whatever validators are attached. *)
Theorem get_format_same_as_iff (n1 n2 : string) (v1 v2 : option nat) :
  dict_get n1 FORMATS <> None ->
  dict_get n2 FORMATS <> None ->
  (Format.same_as (get_format n1 v1) (get_format n2 v2) = true <-> n1 = n2).
Proof. apply same_as_get_format. Qed.

Lemma get_format_same_as_iff_witness :
  Format.same_as (get_format "GML" (Some 1%nat)) (get_format "GML" None) = true.
Proof.
  apply (get_format_same_as_iff "GML" "GML" (Some 1%nat) None);
    [discriminate | discriminate | reflexivity].
Defined.

(** ** The registry of media types *)

Lemma add_formats_cons (entry : string * FormatDefinition.t)
    (table : list (string * FormatDefinition.t)) (d : mimetypes.db) :
  add_formats (entry :: table) d =
  add_formats table
    (mimetypes.add_type (FormatDefinition.mime_type (snd entry))
       (FormatDefinition.extension (snd entry)) d).
Proof. reflexivity. Qed.

(** After the loop an extension has the type of the last entry that names
    it, and an extension no entry names has the type it had. *)
Lemma types_map_add_formats (table : list (string * FormatDefinition.t))
    (d : mimetypes.db) (ext : string) :
  mimetypes.types_map (add_formats table d) !! ext =
  match last_type_of ext table with
  | Some type => Some type
  | None => mimetypes.types_map d !! ext
  end.
Proof.
  revert d. induction table as [| entry table IH]; intros d; [reflexivity |].
  rewrite add_formats_cons, IH. cbn [last_type_of].
  destruct (last_type_of ext table); [reflexivity |].
  cbn [mimetypes.add_type mimetypes.types_map].
  destruct (String.eqb_spec (FormatDefinition.extension (snd entry)) ext)
    as [-> | Hne].
  - apply lookup_insert_eq.
  - now apply lookup_insert_ne.
Qed.

Lemma add_type_adds (type ext : string) (d : mimetypes.db) :
  In ext (mimetypes.guess_all_extensions type (mimetypes.add_type type ext d)).
Proof.
  unfold mimetypes.guess_all_extensions, mimetypes.add_type.
  cbn [mimetypes.types_map_inv].
  destruct (mimetypes.types_map_inv d !! type) as [exts |] eqn:Hexts.
  - destruct (py_in ext exts) eqn:Hin.
    + rewrite Hexts. simpl. now apply py_in_true_iff.
    + rewrite lookup_insert_eq. simpl. apply in_or_app. right. simpl. auto.
  - rewrite lookup_insert_eq. simpl. auto.
Qed.

Lemma add_type_keeps (type ext type' ext' : string) (d : mimetypes.db) :
  In ext' (mimetypes.guess_all_extensions type' d) ->
  In ext' (mimetypes.guess_all_extensions type'
             (mimetypes.add_type type ext d)).
Proof.
  unfold mimetypes.guess_all_extensions, mimetypes.add_type.
  cbn [mimetypes.types_map_inv]. intros Hin.
  destruct (mimetypes.types_map_inv d !! type) as [exts |] eqn:Hexts.
  - destruct (py_in ext exts); [exact Hin |].
    destruct (String.eqb_spec type type') as [<- | Hne].
    + rewrite lookup_insert_eq. rewrite Hexts in Hin. simpl in *.
      apply in_or_app. auto.
    + now rewrite lookup_insert_ne.
  - destruct (String.eqb_spec type type') as [<- | Hne].
    + rewrite Hexts in Hin. contradiction.
    + now rewrite lookup_insert_ne.
Qed.

Lemma add_formats_keeps (table : list (string * FormatDefinition.t))
    (d : mimetypes.db) (type ext : string) :
  In ext (mimetypes.guess_all_extensions type d) ->
  In ext (mimetypes.guess_all_extensions type (add_formats table d)).
Proof.
  revert d. induction table as [| entry table IH]; intros d Hin; [exact Hin |].
  rewrite add_formats_cons. apply IH. now apply add_type_keeps.
Qed.

Lemma add_formats_adds (table : list (string * FormatDefinition.t))
    (d : mimetypes.db) (entry : string * FormatDefinition.t) :
  In entry table ->
  In (FormatDefinition.extension (snd entry))
     (mimetypes.guess_all_extensions (FormatDefinition.mime_type (snd entry))
        (add_formats table d)).
Proof.
  revert d. induction table as [| e table IH]; intros d; [contradiction |].
  rewrite add_formats_cons. intros [-> | Hin].
  - apply add_formats_keeps, add_type_adds.
  - now apply IH.
Qed.

(** An extension already among those of the type: the second table is
    left as it is. *)
Lemma add_type_known (type ext : string) (d : mimetypes.db) :
  In ext (mimetypes.guess_all_extensions type d) ->
  mimetypes.types_map_inv (mimetypes.add_type type ext d)
    = mimetypes.types_map_inv d.
Proof.
  unfold mimetypes.guess_all_extensions, mimetypes.add_type.
  cbn [mimetypes.types_map_inv]. intros Hin.
  destruct (mimetypes.types_map_inv d !! type) as [exts |]; [| contradiction].
  simpl in Hin. apply py_in_true_iff in Hin. now rewrite Hin.
Qed.

Lemma add_formats_known (table : list (string * FormatDefinition.t))
    (d : mimetypes.db) :
  (forall entry, In entry table ->
     In (FormatDefinition.extension (snd entry))
        (mimetypes.guess_all_extensions
           (FormatDefinition.mime_type (snd entry)) d)) ->
  mimetypes.types_map_inv (add_formats table d) = mimetypes.types_map_inv d.
Proof.
  revert d. induction table as [| e table IH]; intros d Hall; [reflexivity |].
  rewrite add_formats_cons, IH.
  - apply add_type_known, Hall. simpl. auto.
  - intros entry Hin. apply add_type_keeps, Hall. simpl. auto.
Qed.

(** X5. After [_get_mimetypes], whatever the registry held before, each
    extension of the table has the media type of the last format that uses
    it: [.xml] is the type of WMS 1.0.0, [.zip] the zipped shapefile and
    [.tiff] the GeoTIFF type; an extension outside the table keeps the type
    it had. *)
Theorem get_mimetypes_types_map (init : mimetypes.db) (ext : string) :
  let r := _get_mimetypes init in
  mimetypes.types_map r !! ".xml" = Some "application/x-ogc-wms; version=1.0.0"
  /\ mimetypes.types_map r !! ".zip" = Some "application/x-zipped-shp"
  /\ mimetypes.types_map r !! ".tiff" = Some "image/tiff; subtype=geotiff"
  /\ mimetypes.types_map r !! ".gml" = Some "application/gml+xml"
  /\ mimetypes.types_map r !! ".json" = Some "application/json"
  /\ mimetypes.types_map r !! ".geojson" = Some "application/vnd.geo+json"
  /\ (~ In ext [".xml"; ".zip"; ".tiff"; ".gml"; ".json"; ".geojson"] ->
      mimetypes.types_map r !! ext = mimetypes.types_map init !! ext).
Proof.
  intros r. unfold r, _get_mimetypes.
  do 6 (split; [rewrite types_map_add_formats; vm_compute; reflexivity |]).
  intros Hout. rewrite types_map_add_formats.
  assert (Hnone : last_type_of ext FORMATS = None).
  { cbn [last_type_of FORMATS snd FormatDefinition.extension
         FormatDefinition.mime_type].
    repeat match goal with
    | |- context [String.eqb ?e ext] =>
        destruct (String.eqb_spec e ext) as [<- | _];
        [exfalso; apply Hout; simpl; tauto |]
    end.
    reflexivity. }
  now rewrite Hnone.
Qed.

Lemma get_mimetypes_types_map_witness :
  mimetypes.types_map (_get_mimetypes sample_db) !! ".txt" = Some "text/plain".
Proof.
  destruct (get_mimetypes_types_map sample_db ".txt")
    as (_ & _ & _ & _ & _ & _ & Hother).
  rewrite Hother; [vm_compute; reflexivity |].
  simpl. intros H. repeat (destruct H as [H | H]; [discriminate H |]).
  exact H.
Defined.

(** X6. After [_get_mimetypes], whatever the registry held before, every
    format of the table has its extension among the extensions of its
    media type, and what the registry listed before is still listed. *)
Theorem get_mimetypes_extensions (init : mimetypes.db) (name : string)
    (fd : FormatDefinition.t) (type ext : string) :
  (dict_get name FORMATS = Some fd ->
   In (FormatDefinition.extension fd)
      (mimetypes.guess_all_extensions (FormatDefinition.mime_type fd)
         (_get_mimetypes init)))
  /\ (In ext (mimetypes.guess_all_extensions type init) ->
      In ext (mimetypes.guess_all_extensions type (_get_mimetypes init))).
Proof.
  split.
  - intros Hget. apply dict_get_in in Hget.
    apply (add_formats_adds FORMATS init (name, fd) Hget).
  - apply add_formats_keeps.
Qed.

Lemma get_mimetypes_extensions_witness :
  In ".xml" (mimetypes.guess_all_extensions "application/x-ogc-wfs"
               (_get_mimetypes sample_db))
  /\ In ".zip" (mimetypes.guess_all_extensions "application/zip"
                  (_get_mimetypes sample_db)).
Proof.
  destruct (get_mimetypes_extensions sample_db "WFS"
              (FormatDefinition.mk "application/x-ogc-wfs" ".xml" None)
              "application/zip" ".zip") as [Hadd Hkeep].
  split.
  - apply Hadd. reflexivity.
  - apply Hkeep. vm_compute. auto.
Defined.

(** X7. Adding the formats of a table to a registry that already has them
    changes nothing: the loop of [_get_mimetypes] run a second time leaves
    both tables of the registry as the first run left them. *)
Theorem add_formats_twice (table : list (string * FormatDefinition.t))
    (d : mimetypes.db) :
  add_formats table (add_formats table d) = add_formats table d.
Proof.
  assert (Hfields : forall a b : mimetypes.db,
            mimetypes.types_map a = mimetypes.types_map b ->
            mimetypes.types_map_inv a = mimetypes.types_map_inv b -> a = b).
  { intros [] []. simpl. now intros -> ->. }
  apply Hfields.
  - apply map_eq. intros ext. rewrite !types_map_add_formats.
    now destruct (last_type_of ext table).
  - apply add_formats_known. intros entry Hin. now apply add_formats_adds.
Qed.

(** ** Negotiation over time *)

(** One call of the setter keeps the supported formats, and keeps the
    active format unset or the same as a supported format. *)
Lemma set_data_format_keeps (r : Format.t) (self : BasicComplex.t) :
  (BasicComplex.data_format self = None
   \/ exists fs a f,
        BasicComplex.supported_formats self = Some fs
        /\ BasicComplex.data_format self = Some a
        /\ In f fs /\ Format.same_as a f = true) ->
  let self' := snd (BasicComplex.set_data_format r self) in
  BasicComplex.supported_formats self' = BasicComplex.supported_formats self
  /\ (BasicComplex.data_format self' = None
      \/ exists fs a f,
           BasicComplex.supported_formats self' = Some fs
           /\ BasicComplex.data_format self' = Some a
           /\ In f fs /\ Format.same_as a f = true).
Proof.
  intros Hinv. destruct self as [active [fs |]].
  - rewrite set_data_format_unfold.
    destruct (BasicComplex.supported_loop fs r) eqn:Hl; simpl.
    + split; [reflexivity |]. right.
      apply supported_loop_true_iff in Hl as (f & Hf & Hs).
      exists fs, r, f. auto.
    + split; [reflexivity | exact Hinv].
  - simpl. split; [reflexivity | exact Hinv].
Qed.

(** X8. However a negotiator was constructed, and whatever formats are
    then requested of it in turn, accepted or rejected, its supported
    formats stay as constructed and its active format is always either
    unset or the same as one of the supported formats. *)
Theorem active_format_always_supported (d : option Format.t)
    (sf : option (list Format.t)) (requests : list Format.t)
    (self : BasicComplex.t) :
  BasicComplex.__init__ d sf = Return self ->
  let final :=
    fold_left (fun s r => snd (BasicComplex.set_data_format r s))
      requests self in
  BasicComplex.supported_formats final = sf
  /\ (BasicComplex.data_format final = None
      \/ exists fs a f,
           sf = Some fs /\ BasicComplex.data_format final = Some a
           /\ In f fs /\ Format.same_as a f = true).
Proof.
  intros Hinit final.
  assert (Hstart :
            BasicComplex.supported_formats self = sf
            /\ (BasicComplex.data_format self = None
                \/ exists fs a f,
                     BasicComplex.supported_formats self = Some fs
                     /\ BasicComplex.data_format self = Some a
                     /\ In f fs /\ Format.same_as a f = true)).
  { destruct sf as [[| A rest] |].
    - destruct d as [r |]; [discriminate Hinit |].
      injection Hinit as <-. auto.
    - rewrite init_unfold in Hinit. destruct d as [r |].
      + destruct (BasicComplex.supported_loop (A :: rest) r) eqn:Hl;
          [| discriminate Hinit].
        injection Hinit as <-. split; [reflexivity |]. right.
        apply supported_loop_true_iff in Hl as (f & Hf & Hs).
        exists (A :: rest), r, f. auto.
      + injection Hinit as <-. split; [reflexivity |]. right.
        exists (A :: rest), A, A. simpl. auto using same_as_refl.
    - destruct d as [r |]; [discriminate Hinit |].
      injection Hinit as <-. auto. }
  clear Hinit. unfold final. clear final. revert self Hstart.
  induction requests as [| r requests IH]; intros self [Hsf Hinv].
  - simpl. split; [exact Hsf |].
    destruct Hinv as [Hnone | (fs & a & f & Hfs & Ha & Hf & Hs)];
      [left; exact Hnone | right].
    exists fs, a, f. rewrite <- Hsf. auto.
  - simpl. apply IH.
    destruct (set_data_format_keeps r self Hinv) as [Hsame Hinv'].
    split; [now rewrite Hsame | exact Hinv'].
Qed.

Lemma active_format_always_supported_witness :
  BasicComplex.supported_formats
    (fold_left (fun s r => snd (BasicComplex.set_data_format r s))
       [sample_tiff; requested_gml; sample_tiff]
       (BasicComplex.mk (Some sample_json) (Some [sample_json; sample_gml])))
  = Some [sample_json; sample_gml].
Proof.
  exact (proj1 (active_format_always_supported None
                  (Some [sample_json; sample_gml])
                  [sample_tiff; requested_gml; sample_tiff]
                  (BasicComplex.mk (Some sample_json)
                     (Some [sample_json; sample_gml])) eq_refl)).
Defined.

(** A negotiator given an explicit format but no supported formats
    cannot be constructed: with [supported_formats] left at [None] the
    constructor raises [TypeError], with an empty list it raises
    [InvalidParameterValue]. Given neither, it is constructed with no
    active format, and then every request is refused in the same two
    ways. *)
Theorem init_without_supported_formats (d r : Format.t) :
  BasicComplex.__init__ (Some d) None = Raise TypeError
  /\ BasicComplex.__init__ (Some d) (Some [])
     = Raise (InvalidParameterValue (BasicComplex.not_supported d))
  /\ BasicComplex.__init__ None None = Return (BasicComplex.mk None None)
  /\ BasicComplex.__init__ None (Some [])
     = Return (BasicComplex.mk None (Some []))
  /\ BasicComplex.set_data_format r (BasicComplex.mk None None)
     = (Raise TypeError, BasicComplex.mk None None)
  /\ BasicComplex.set_data_format r (BasicComplex.mk None (Some []))
     = (Raise (InvalidParameterValue (BasicComplex.not_supported r)),
        BasicComplex.mk None (Some [])).
Proof. repeat split. Qed.

(** X9. A negotiator whose supported formats are formats of the table,
    taken by name, accepts a format of the table, with whatever validator,
    exactly when its name is one of those names. *)
Theorem catalogue_negotiation (names : list string) (n : string)
    (v : option nat) (active : option Format.t) :
  (forall m, In m names -> dict_get m FORMATS <> None) ->
  dict_get n FORMATS <> None ->
  let self :=
    BasicComplex.mk active (Some (map (fun m => get_format m None) names)) in
  (fst (BasicComplex.set_data_format (get_format n v) self) = Return tt
   <-> In n names).
Proof.
  intros Hnames Hn self. unfold self. rewrite set_data_format_unfold.
  assert (Hiff : BasicComplex.supported_loop
                   (map (fun m => get_format m None) names) (get_format n v)
                 = true <-> In n names).
  { rewrite supported_loop_true_iff. split.
    - intros (f & Hf & Hs). apply in_map_iff in Hf as (m & <- & Hm).
      apply same_as_get_format in Hs; [now subst | exact Hn | auto].
    - intros Hin. exists (get_format n None). split.
      + apply in_map_iff. exists n. auto.
      + now apply same_as_get_format. }
  destruct (BasicComplex.supported_loop _ _); simpl.
  - split; [intros _; now apply Hiff | reflexivity].
  - split; [discriminate |]. intros Hin. apply Hiff in Hin. discriminate.
Qed.

Lemma catalogue_negotiation_witness :
  fst (BasicComplex.set_data_format (get_format "GML" (Some 3%nat))
         (BasicComplex.mk None
            (Some (map (fun m => get_format m None) ["JSON"; "GML"]))))
  = Return tt.
Proof.
  apply (catalogue_negotiation ["JSON"; "GML"] "GML" (Some 3%nat) None).
  - intros m [<- | [<- | []]]; discriminate.
  - discriminate.
  - simpl. auto.
Defined.

(** ** Handles: switching and reading the source *)

Section MoreHandles.
Context `{RT : Runtime}.

(** Setting a file, a stream or a value replaces what any earlier
    setter left: the handle after two setters in a row is the handle after
    the second alone. *)
Theorem last_setter_wins (first : IOHandler.call) (self : IOHandler.t)
    (w w' : World) (x : pyval) (name : string) :
  (exists y k,
     first = IOHandler.set_data y \/ first = IOHandler.set_stream y
     \/ first = IOHandler.set_memory_object y
     \/ first = IOHandler.set_file k) ->
  let mid := object_after (first self w) in
  object_after (IOHandler.set_data x mid w')
    = object_after (IOHandler.set_data x self w')
  /\ object_after (IOHandler.set_stream x mid w')
     = object_after (IOHandler.set_stream x self w')
  /\ object_after (IOHandler.set_file name mid w')
     = object_after (IOHandler.set_file name self w').
Proof.
  intros (y & k & [-> | [-> | [-> | ->]]]); repeat split.
Qed.


(** X11. On a file source, [get_file] returns the absolute path that
    [set_file] stored, whether or not a file is there and whatever the
    cache holds, and touches nothing. If the file exists, [get_data] gives
    what reading its bytes in text mode gives, the text or the error of the
    decoding; if it does not, [get_data] and [get_stream] raise [IOError].
    In each case the handle and the world are as before. *)
Theorem file_source_is_read_in_place (self : IOHandler.t) (w : World)
    (name : string) :
  let h := object_after (IOHandler.set_file name self w) in
  IOHandler.get_file h w = (Return (VStr (abspath name)), h, w)
  /\ (forall c, files w !! abspath name = Some c ->
      (forall t, read_text c = Return t ->
         IOHandler.get_data h w = (Return (VStr t), h, w))
      /\ (forall e, read_text c = Raise e ->
            IOHandler.get_data h w = (Raise e, h, w)))
  /\ (files w !! abspath name = None ->
      IOHandler.get_data h w = (Raise IOError, h, w)
      /\ IOHandler.get_stream h w = (Raise IOError, h, w)).
Proof.
  intros h. unfold h, IOHandler.get_file, IOHandler.get_data,
    IOHandler.get_stream, file_read, file_bytes. cbn.
  split; [reflexivity |]. split.
  - intros c ->. split; [intros t -> | intros e ->]; reflexivity.
  - intros ->. split; reflexivity.
Qed.

End MoreHandles.

Lemma last_setter_wins_witness :
  object_after
    (IOHandler.set_data (VStr "b")
       (object_after (IOHandler.set_stream (VObj 0) (fst fresh_handle)
                        sample_world)) sample_world)
  = object_after (IOHandler.set_data (VStr "b") (fst fresh_handle)
                    sample_world).
Proof.
  apply (@last_setter_wins sample_runtime (IOHandler.set_stream (VObj 0))
           (fst fresh_handle) sample_world sample_world (VStr "b") "x").
  exists (VObj 0), "". auto.
Defined.


Lemma file_source_is_read_in_place_witness :
  @IOHandler.get_data sample_runtime file_handle sample_world
  = (Return (VStr "abc"), file_handle, sample_world).
Proof.
  destruct (@file_source_is_read_in_place sample_runtime (fst fresh_handle)
              sample_world "/data/in.txt") as (_ & Hread & _).
  destruct (Hread "abc") as [Htext _]; [vm_compute; reflexivity |].
  apply Htext. vm_compute. reflexivity.
Defined.

(** ** Handles: from one representation to another *)

Section Conversions.
Context `{RT : Runtime}.

(** A first [get_file] that returns has returned the path [mkstemp] gave,
    has cached it, and has left the text of the source in that file. *)
Lemma get_file_returns_temp_name (self self1 : IOHandler.t) (w w1 : World)
    (p : string) :
  IOHandler.source_type self = Some STREAM
  \/ IOHandler.source_type self = Some DATA ->
  IOHandler._tempfile self = None ->
  IOHandler.get_file self w = (Return (VStr p), self1, w1) ->
  IOHandler.mkstemp (IOHandler.get_workdir self) w
    = (Return p, set_files (<[p := ""]> (files w)) w)
  /\ p <> "" /\ files w !! p = None
  /\ self1 = IOHandler.set_tempfile (Some p) self
  /\ exists c,
       files w1 = <[p := c]> (files w)
       /\ (IOHandler.source self = VStr c
           \/ exists r, IOHandler.source self = VObj r
                        /\ streams w !! r = Some c).
Proof.
  intros Hk Hc Hget.
  destruct (get_file_returns_text self self1 w w1 (VStr p) Hk Hc Hget)
    as (q & c & Hq & Hne & Hfresh & Hmk & [[Hd Hsrc] | [Hs (r & Hsrc & Hr)]]);
    injection Hq as <-.
  - rewrite (get_file_text_value self w c p Hd Hsrc Hc Hmk) in Hget.
    injection Hget as <- <-.
    do 4 (split; [assumption || reflexivity |]).
    exists c. cbn [files set_files]. auto.
  - rewrite (get_file_stream self w r c p Hs Hsrc Hr Hc Hmk) in Hget.
    injection Hget as <- <-.
    do 4 (split; [assumption || reflexivity |]).
    exists c. cbn [files]. split; [reflexivity |]. right. exists r. auto.
Qed.

(** X12. What [get_file] wrote can be read back through another handle.
    If a first [get_file] on a stream or value source returned the path
    [p], and [p] is its own absolute form, then the file [p] holds the text
    of the first handle's source, and any handle on which [set_file p] is
    called gives [p] as its file and reads with [get_data] what reading
    that text in text mode gives: the text itself where reading leaves it
    as it is, another text where line ends are translated, the error where
    it cannot be decoded. *)
Theorem value_to_file_and_back (self self1 other : IOHandler.t)
    (w w1 : World) (p : string) :
  IOHandler.source_type self = Some STREAM
  \/ IOHandler.source_type self = Some DATA ->
  IOHandler._tempfile self = None ->
  IOHandler.get_file self w = (Return (VStr p), self1, w1) ->
  abspath p = p ->
  let g := object_after (IOHandler.set_file p other w1) in
  exists c,
    (IOHandler.source self = VStr c
     \/ exists r, IOHandler.source self = VObj r /\ streams w !! r = Some c)
    /\ files w1 !! p = Some c
    /\ IOHandler.get_data g w1
       = (match read_text c with
          | Return text => Return (VStr text)
          | Raise e => Raise e
          end, g, w1)
    /\ (read_text c = Return c ->
        IOHandler.get_data g w1 = (Return (VStr c), g, w1))
    /\ IOHandler.get_file g w1 = (Return (VStr p), g, w1).
Proof.
  intros Hk Hc Hget Habs g.
  destruct (get_file_returns_temp_name self self1 w w1 p Hk Hc Hget)
    as (_ & _ & _ & _ & c & Hfiles & Hsrc).
  exists c. split; [exact Hsrc |].
  unfold g, IOHandler.get_data, IOHandler.get_file, file_read, file_bytes. cbn.
  rewrite Habs, Hfiles, lookup_insert_eq.
  split; [reflexivity |]. split.
  - now destruct (read_text c).
  - split; [| reflexivity]. intros ->. reflexivity.
Qed.


End Conversions.

Lemma value_to_file_and_back_witness :
  let g := object_after (@IOHandler.set_file sample_runtime "/tmp/tmp"
                           (fst fresh_handle) (world_after text_first)) in
  @IOHandler.get_data sample_runtime g (world_after text_first)
  = (Return (VStr "hello"), g, world_after text_first).
Proof.
  intros g.
  destruct (@value_to_file_and_back sample_runtime text_handle
              (object_after text_first) (fst fresh_handle) (snd fresh_handle)
              (world_after text_first) "/tmp/tmp")
    as (c & Hsrc & _ & _ & Hread & _).
  - right. reflexivity.
  - reflexivity.
  - vm_compute. reflexivity.
  - reflexivity.
  - destruct Hsrc as [[= <-] | (r & [=] & _)].
    apply Hread. vm_compute. reflexivity.
Defined.


(** ** Handles: the working directory and what the getters leave alone *)

Section WorkingDirectory.
Context `{RT : Runtime}.

(** What [makedirs] yields: an error, or the path made; either way
    directories are added and nothing else is touched. *)
Lemma makedirs_spec (d : string) (w : World) :
  files (snd (makedirs d w)) = files w
  /\ streams (snd (makedirs d w)) = streams w
  /\ dirs w ⊆ dirs (snd (makedirs d w))
  /\ ((exists e made, makedirs_error d w = Some (e, made)
                      /\ fst (makedirs d w) = Raise e)
      \/ (makedirs_error d w = None
          /\ fst (makedirs d w) = Return VNone
          /\ path_exists d (snd (makedirs d w)) = true)).
Proof.
  unfold makedirs. destruct (makedirs_error d w) as [[e made] |];
    cbn [fst snd set_dirs files dirs streams].
  - do 2 (split; [reflexivity |]). split; [set_solver |].
    left. exists e, made. auto.
  - do 2 (split; [reflexivity |]). split; [set_solver |].
    right. do 2 (split; [reflexivity |]).
    unfold path_exists. cbn [files dirs].
    apply orb_true_iff. right. apply bool_decide_eq_true. set_solver.
Qed.


End WorkingDirectory.


Section Frame.
Context `{RT : Runtime}.

(** What [get_file] does to the files: nothing, or one write to a path
    that named no file. *)
Lemma get_file_files (self : IOHandler.t) (w : World) :
  dirs (world_after (IOHandler.get_file self w)) = dirs w
  /\ (files (world_after (IOHandler.get_file self w)) = files w
      \/ exists p content,
           files w !! p = None
           /\ files (world_after (IOHandler.get_file self w))
              = <[p := content]> (files w)).
Proof.
  unfold IOHandler.get_file, world_after.
  destruct (IOHandler.source_type self) as [[] |]; cbn [snd]; auto;
    destruct (truthy (IOHandler._tempfile self)); cbn [snd]; auto;
    (destruct (mkstemp_spec (IOHandler.get_workdir self) w)
       as [[e Hmk] | (p & Hmk & _ & Hfresh)]; rewrite Hmk; cbn [snd]; auto);
    unfold open_w, stream_read, file_write, set_files, set_streams;
    cbn [files dirs streams].
  - destruct (IOHandler.source self) as [| | | | | r]; cbn [snd files dirs];
      rewrite ?insert_insert_eq; try (split; [reflexivity | eauto]).
    destruct (streams w !! r); cbn [snd files dirs streams];
      rewrite ?lookup_insert_eq, ?insert_insert_eq;
      (split; [reflexivity | eauto]).
  - destruct (IOHandler.source self); cbn [snd files dirs];
      rewrite ?lookup_insert_eq, ?insert_insert_eq;
      (split; [reflexivity | eauto]).
Qed.

(** X16. The getters leave the rest alone. [get_data] and [get_stream]
    never change the handle, the files or the directories. [get_file]
    never changes the source type, the source or the working directory of
    the handle, never changes the directories, and never removes or
    rewrites a file that existed. *)
Theorem getters_leave_the_rest (self : IOHandler.t) (w : World) :
  object_after (IOHandler.get_data self w) = self
  /\ files (world_after (IOHandler.get_data self w)) = files w
  /\ dirs (world_after (IOHandler.get_data self w)) = dirs w
  /\ object_after (IOHandler.get_stream self w) = self
  /\ files (world_after (IOHandler.get_stream self w)) = files w
  /\ dirs (world_after (IOHandler.get_stream self w)) = dirs w
  /\ IOHandler.source_type (object_after (IOHandler.get_file self w))
     = IOHandler.source_type self
  /\ IOHandler.source (object_after (IOHandler.get_file self w))
     = IOHandler.source self
  /\ IOHandler._workdir (object_after (IOHandler.get_file self w))
     = IOHandler._workdir self
  /\ dirs (world_after (IOHandler.get_file self w)) = dirs w
  /\ (forall path c,
        files w !! path = Some c ->
        files (world_after (IOHandler.get_file self w)) !! path = Some c).
Proof.
  split; [| split; [| split]].
  - unfold IOHandler.get_data, object_after.
    destruct (IOHandler.source_type self) as [[] |]; cbn; try reflexivity.
    + now destruct (file_read (IOHandler.source self) w).
    + now destruct (stream_read (IOHandler.source self) w).
  - unfold IOHandler.get_data, world_after, stream_read.
    destruct (IOHandler.source_type self) as [[] |]; cbn; try reflexivity.
    + now destruct (file_read (IOHandler.source self) w).
    + destruct (IOHandler.source self) as [| | | | | r]; try reflexivity.
      now destruct (streams w !! r).
  - unfold IOHandler.get_data, world_after, stream_read.
    destruct (IOHandler.source_type self) as [[] |]; cbn; try reflexivity.
    + now destruct (file_read (IOHandler.source self) w).
    + destruct (IOHandler.source self) as [| | | | | r]; try reflexivity.
      now destruct (streams w !! r).
  - split; [| split; [| split]].
    + unfold IOHandler.get_stream, object_after.
      destruct (IOHandler.source_type self) as [[] |]; cbn; try reflexivity.
      destruct (file_bytes (IOHandler.source self) w); reflexivity.
    + unfold IOHandler.get_stream, world_after.
      destruct (IOHandler.source_type self) as [[] |]; cbn; try reflexivity.
      destruct (file_bytes (IOHandler.source self) w); reflexivity.
    + unfold IOHandler.get_stream, world_after.
      destruct (IOHandler.source_type self) as [[] |]; cbn; try reflexivity.
      destruct (file_bytes (IOHandler.source self) w); reflexivity.
    + assert (Hobj : forall h,
                h = self \/ (exists p, h = IOHandler.set_tempfile p self) ->
                IOHandler.source_type h = IOHandler.source_type self
                /\ IOHandler.source h = IOHandler.source self
                /\ IOHandler._workdir h = IOHandler._workdir self).
      { intros h [-> | [p ->]]; repeat split. }
      assert (Hcases : object_after (IOHandler.get_file self w) = self
                       \/ exists p, object_after (IOHandler.get_file self w)
                                    = IOHandler.set_tempfile p self).
      { unfold IOHandler.get_file, object_after.
        destruct (IOHandler.source_type self) as [[] |]; cbn [fst snd]; auto;
          destruct (truthy (IOHandler._tempfile self)); cbn [fst snd]; auto;
          destruct (IOHandler.mkstemp (IOHandler.get_workdir self) w)
            as [[name | e] w1]; cbn [fst snd]; auto.
        - destruct (stream_read (IOHandler.source self) (open_w name w1))
            as [[v |] w3]; cbn [fst snd]; auto.
          destruct (file_write name v w3) as [[] w4]; cbn [fst snd]; eauto.
        - destruct (file_write name (IOHandler.source self) (open_w name w1))
            as [[] w4]; cbn [fst snd]; eauto. }
      destruct (Hobj _ Hcases) as (H1 & H2 & H3).
      destruct (get_file_files self w) as [Hdirs Hfiles].
      do 4 (split; [assumption |]).
      intros path c Hpath.
      destruct Hfiles as [-> | (p & content & Hfresh & ->)]; [exact Hpath |].
      rewrite lookup_insert_ne; [exact Hpath |].
      intros <-. congruence.
Qed.

End Frame.

Lemma getters_leave_the_rest_witness :
  files (world_after (@IOHandler.get_file sample_runtime stream_handle
                        sample_world)) !! "/data/in.txt" = Some "abc".
Proof.
  destruct (@getters_leave_the_rest sample_runtime stream_handle sample_world)
    as (_ & _ & _ & _ & _ & _ & _ & _ & _ & _ & Hkept).
  apply Hkept. vm_compute. reflexivity.
Defined.

(** ** Handles: base64 *)

Section Base64Handles.
Context `{RT : Runtime} `{B64 : Base64}.

(** X17. [set_base64] on a text that decodes stores the decoded text as
    the value of the handle: [get_data] then returns it and [get_base64]
    returns its encoding. On a text that does not decode, the error of the
    decoder is raised and the handle is left as it was. [get_base64] on a
    handle with no source raises [TypeError], there being nothing to
    encode. *)
Theorem base64_in_and_out (self : IOHandler.t) (w : World) (t : string) :
  (forall d, b64decode t = Return d ->
     let h := object_after (IOHandler.set_base64 (VStr t) self w) in
     IOHandler.set_base64 (VStr t) self w = (Return VNone, h, w)
     /\ IOHandler.source_type h = Some DATA
     /\ IOHandler.get_data h w = (Return (VStr d), h, w)
     /\ IOHandler.get_base64 h w = (Return (VStr (b64encode d)), h, w)
     /\ IOHandler._tempfile h = IOHandler._tempfile self)
  /\ (forall e, b64decode t = Raise e ->
      IOHandler.set_base64 (VStr t) self w = (Raise e, self, w))
  /\ (IOHandler.source_type self = None ->
      IOHandler.get_base64 self w = (Raise TypeError, self, w)).
Proof.
  split; [| split].
  - intros d Hd h. unfold h, IOHandler.set_base64. rewrite Hd.
    repeat split.
  - intros e He. unfold IOHandler.set_base64. now rewrite He.
  - intros Hk. unfold IOHandler.get_base64, IOHandler.get_data.
    now rewrite Hk.
Qed.

End Base64Handles.

Lemma base64_in_and_out_witness :
  let h := object_after (@IOHandler.set_base64 sample_base64 (VStr "aGVsbG8=")
                           (fst fresh_handle) empty_world) in
  @IOHandler.get_data sample_runtime h empty_world
    = (Return (VStr "hello"), h, empty_world)
  /\ @IOHandler.get_base64 sample_runtime sample_base64 h empty_world
     = (Return (VStr "aGVsbG8="), h, empty_world)
  /\ @IOHandler.set_base64 sample_base64 (VStr "aGVsbG8") (fst fresh_handle)
       empty_world
     = (Raise TypeError, fst fresh_handle, empty_world).
Proof.
  intros h.
  destruct (@base64_in_and_out sample_runtime sample_base64
              (fst fresh_handle) empty_world "aGVsbG8=") as (Hgood & _ & _).
  destruct (Hgood "hello" eq_refl) as (_ & _ & Hdata & Hb64 & _).
  destruct (@base64_in_and_out sample_runtime sample_base64
              (fst fresh_handle) empty_world "aGVsbG8") as (_ & Hbad & _).
  split; [exact Hdata |]. split; [exact Hb64 |].
  apply Hbad. reflexivity.
Defined.

(** ** Literal handles: what a conversion stores *)

Section Conversion.
Context `{RT : Runtime}.

(** The conversion of [set_data] gives a value of the declared type. *)
Lemma convert_gives_type (dt : string) (data v : pyval) :
  SimpleHandler.convert dt data = Return v ->
  (dt = "string" -> exists s, v = VStr s)
  /\ (dt = "integer" -> exists z, v = VInt z)
  /\ (dt = "float" -> exists b, v = VFloat b)
  /\ (dt = "boolean" -> exists b, v = VBool b).
Proof.
  intros Hconv. repeat split; intros ->; unfold SimpleHandler.convert in Hconv;
    cbn in Hconv.
  - injection Hconv as <-. eauto.
  - unfold py_int in Hconv.
    destruct data as [| s | z | b | b |]; try discriminate Hconv.
    + destruct (int_of_text s); [injection Hconv as <-; eauto | discriminate].
    + injection Hconv as <-. eauto.
    + destruct (float_trunc b); [injection Hconv as <-; eauto | discriminate].
    + injection Hconv as <-. eauto.
  - unfold py_float in Hconv.
    destruct data as [| s | z | b | b |]; try discriminate Hconv.
    + destruct (float_of_text s); [injection Hconv as <-; eauto | discriminate].
    + destruct (float_of_int z); [injection Hconv as <-; eauto | discriminate].
    + injection Hconv as <-. eauto.
    + destruct (float_of_int (if b then 1 else 0));
        [injection Hconv as <-; eauto | discriminate].
  - destruct data as [| s | | | |]; try discriminate Hconv.
    destruct (String.eqb (lower s) "true"); injection Hconv as <-; eauto.
Qed.

(** X19. [set_data] on a literal handle touches nothing but the source:
    the world, the declared type, the validator, the cached file and the
    working directory are as before, whatever is set. When it raises, the
    handle is wholly as before, the value set earlier included. *)
Theorem set_data_changes_only_the_source (self : SimpleHandler.t)
    (w : World) (data : pyval) :
  let r := SimpleHandler.set_data data self w in
  world_after r = w
  /\ SimpleHandler.data_type (object_after r) = SimpleHandler.data_type self
  /\ SimpleHandler._validator (object_after r) = SimpleHandler._validator self
  /\ IOHandler._tempfile (SimpleHandler.io (object_after r))
     = IOHandler._tempfile (SimpleHandler.io self)
  /\ IOHandler._workdir (SimpleHandler.io (object_after r))
     = IOHandler._workdir (SimpleHandler.io self)
  /\ (forall e, outcome r = Raise e -> object_after r = self).
Proof.
  intros r. unfold r, SimpleHandler.set_data.
  destruct (truthy (SimpleHandler.data_type self)); [| repeat split].
  destruct (py_in _ LITERAL_DATA_TYPES); [| repeat split].
  destruct (SimpleHandler.convert _ data); repeat split.
  intros e He. discriminate He.
Qed.

(** X20. A value that [set_data] has stored on a handle with a declared
    type of the table is of that type: a text for string, an integer for
    integer, a float for float, a boolean for boolean; and it is what
    [get_data] returns. *)
Theorem stored_value_has_declared_type (self : SimpleHandler.t) (w : World)
    (dt : string) (data : pyval) :
  SimpleHandler.data_type self = Some dt ->
  dt <> "" ->
  In (lower dt) LITERAL_DATA_TYPES ->
  let r := SimpleHandler.set_data data self w in
  outcome r = Return VNone ->
  let v := IOHandler.source (SimpleHandler.io (object_after r)) in
  IOHandler.source_type (SimpleHandler.io (object_after r)) = Some DATA
  /\ SimpleHandler.get_data (object_after r) w = (Return v, object_after r, w)
  /\ (lower dt = "string" -> exists s, v = VStr s)
  /\ (lower dt = "integer" -> exists z, v = VInt z)
  /\ (lower dt = "float" -> exists b, v = VFloat b)
  /\ (lower dt = "boolean" -> exists b, v = VBool b).
Proof.
  intros Hdt Hne Hin r. unfold r.
  rewrite (set_data_recognised self w dt data Hdt Hne Hin).
  destruct (SimpleHandler.convert (lower dt) data) as [v0 |] eqn:Hconv;
    [| discriminate].
  intros _. split; [reflexivity |]. split; [reflexivity |].
  exact (convert_gives_type (lower dt) data v0 Hconv).
Qed.

(** After a [set_data] that returned on a declared type of the table, the
    handle is the old one with the converted value as its source. *)
Lemma stored_type_cases (self : SimpleHandler.t) (w : World) (dt : string)
    (data : pyval) :
  SimpleHandler.data_type self = Some dt ->
  dt <> "" ->
  In (lower dt) LITERAL_DATA_TYPES ->
  outcome (SimpleHandler.set_data data self w) = Return VNone ->
  let h := object_after (SimpleHandler.set_data data self w) in
  let v := IOHandler.source (SimpleHandler.io h) in
  h = SimpleHandler.set_io
        (IOHandler.set_source v
           (IOHandler.set_source_type (Some DATA) (SimpleHandler.io self)))
        self
  /\ ((lower dt = "string" -> exists s, v = VStr s)
      /\ (lower dt = "integer" -> exists z, v = VInt z)
      /\ (lower dt = "float" -> exists b, v = VFloat b)
      /\ (lower dt = "boolean" -> exists b, v = VBool b)).
Proof.
  intros Hdt Hne Hin.
  rewrite (set_data_recognised self w dt data Hdt Hne Hin).
  destruct (SimpleHandler.convert (lower dt) data) as [v0 |] eqn:Hconv;
    [| discriminate].
  intros _. split; [reflexivity |].
  exact (convert_gives_type (lower dt) data v0 Hconv).
Qed.

(** X21. Reading the value of a literal handle and setting it again: with
    the type string, integer or float the second [set_data] changes
    nothing; with the type boolean it raises [AttributeError], the stored
    boolean being no text, and the handle keeps the boolean. *)
Theorem set_data_of_stored_value (self : SimpleHandler.t) (w : World)
    (dt : string) (data : pyval) :
  SimpleHandler.data_type self = Some dt ->
  dt <> "" ->
  In (lower dt) LITERAL_DATA_TYPES ->
  let r := SimpleHandler.set_data data self w in
  outcome r = Return VNone ->
  let h := object_after r in
  let v := IOHandler.source (SimpleHandler.io h) in
  (lower dt = "string" \/ lower dt = "integer" \/ lower dt = "float" ->
   SimpleHandler.set_data v h w = (Return VNone, h, w))
  /\ (lower dt = "boolean" ->
      SimpleHandler.set_data v h w = (Raise AttributeError, h, w)).
Proof.
  intros Hdt Hne Hin r Hout h v.
  destruct (stored_type_cases self w dt data Hdt Hne Hin Hout)
    as (Hh & Htype).
  fold r in Hh, Htype. fold h in Hh, Htype. fold v in Htype.
  assert (Hdt' : SimpleHandler.data_type h = Some dt) by (rewrite Hh; exact Hdt).
  destruct Htype as (Hs & Hi & Hf & Hb).
  split.
  - intros Hcase.
    rewrite (set_data_recognised h w dt v Hdt' Hne Hin).
    unfold SimpleHandler.convert.
    destruct Hcase as [Hlow | [Hlow | Hlow]]; rewrite Hlow.
    + destruct (Hs Hlow) as [s Hv]. rewrite Hv. cbn.
      rewrite Hh. unfold v in Hv. rewrite Hh in Hv. cbn in Hv.
      cbn. now rewrite Hv.
    + destruct (Hi Hlow) as [z Hv]. rewrite Hv. cbn.
      rewrite Hh. unfold v in Hv. rewrite Hh in Hv. cbn in Hv.
      cbn. now rewrite Hv.
    + destruct (Hf Hlow) as [b Hv]. rewrite Hv. cbn.
      rewrite Hh. unfold v in Hv. rewrite Hh in Hv. cbn in Hv.
      cbn. now rewrite Hv.
  - intros Hlow.
    rewrite (set_data_recognised h w dt v Hdt' Hne Hin).
    unfold SimpleHandler.convert. rewrite Hlow.
    destruct (Hb Hlow) as [b Hv]. rewrite Hv. reflexivity.
Qed.

End Conversion.

Lemma set_data_changes_only_the_source_witness :
  object_after (@SimpleHandler.set_data sample_runtime (VStr "12a")
                  (typed_handle "integer") empty_world)
  = typed_handle "integer".
Proof.
  destruct (@set_data_changes_only_the_source sample_runtime
              (typed_handle "integer") empty_world (VStr "12a"))
    as (_ & _ & _ & _ & _ & Hfail).
  apply (Hfail ValueError). reflexivity.
Defined.

Lemma stored_value_has_declared_type_witness :
  exists z,
    IOHandler.source
      (SimpleHandler.io
         (object_after (@SimpleHandler.set_data sample_runtime (VStr " 42 ")
                          (typed_handle "Integer") empty_world)))
    = VInt z.
Proof.
  destruct (@stored_value_has_declared_type sample_runtime
              (typed_handle "Integer") empty_world "Integer" (VStr " 42 ")
              eq_refl) as (_ & _ & _ & Hint & _).
  - discriminate.
  - simpl. auto.
  - reflexivity.
  - apply Hint. reflexivity.
Defined.

Lemma set_data_of_stored_value_witness :
  let h := object_after (@SimpleHandler.set_data sample_runtime (VStr "true")
                           (typed_handle "boolean") empty_world) in
  @SimpleHandler.set_data sample_runtime
    (IOHandler.source (SimpleHandler.io h)) h empty_world
  = (Raise AttributeError, h, empty_world).
Proof.
  intros h.
  destruct (@set_data_of_stored_value sample_runtime (typed_handle "boolean")
              empty_world "boolean" (VStr "true") eq_refl) as (_ & Hbool).
  - discriminate.
  - simpl. auto.
  - reflexivity.
  - apply Hbool. reflexivity.
Defined.

(** ** The described inputs and outputs *)

Section Entities.
Context `{RT : Runtime}.

Lemma basic_literal_init (data_type : option string) (uoms : uoms_arg)
    (lit : BasicLiteral.t) :
  BasicLiteral.__init__ data_type uoms = Completes lit ->
  In (BasicLiteral.data_type lit) LITERAL_DATA_TYPES
  /\ (truthy data_type = true -> data_type = Some (BasicLiteral.data_type lit))
  /\ (truthy data_type = false ->
      nth_error LITERAL_DATA_TYPES 2 = Some (BasicLiteral.data_type lit))
  /\ BasicLiteral._uom lit = None
  /\ BasicLiteral.uoms lit
     = if BasicLiteral.uoms_given uoms
       then Some (map BasicLiteral.as_uom
                    match uoms with
                    | UomsList l => l
                    | UomsOne v => [v]
                    | UomsNone => []
                    end)
       else None.
Proof.
  unfold BasicLiteral.__init__. intros Hinit.
  destruct (truthy data_type) eqn:Htruthy; cbn [negb] in Hinit.
  - destruct (py_in (default "" data_type) LITERAL_DATA_TYPES) eqn:Hin;
      [| discriminate Hinit].
    injection Hinit as <-. cbn.
    split; [now apply py_in_true_iff |].
    split; [| split; [discriminate | auto]].
    intros _. destruct data_type; [reflexivity | discriminate Htruthy].
  - destruct (nth_error LITERAL_DATA_TYPES 2) as [d |]; [| discriminate Hinit].
    destruct (py_in d LITERAL_DATA_TYPES) eqn:Hin; [| discriminate Hinit].
    injection Hinit as <-. cbn.
    split; [now apply py_in_true_iff |].
    split; [discriminate | auto].
Qed.

Lemma nth_in_table (x : string) :
  nth_error LITERAL_DATA_TYPES 2 = Some x -> py_in x LITERAL_DATA_TYPES = true.
Proof. intros H. apply py_in_true_iff. eapply nth_error_In; eauto. Qed.

(** The constructor by the data type it settles on. *)
Lemma basic_literal_unfold (data_type : option string) (uoms : uoms_arg) :
  BasicLiteral.__init__ data_type uoms =
  match (if truthy data_type then data_type
         else nth_error LITERAL_DATA_TYPES 2) with
  | None => Fails IndexError
  | Some d =>
      if py_in d LITERAL_DATA_TYPES
      then Completes
             {| BasicLiteral.data_type := d;
                BasicLiteral.uoms :=
                  if BasicLiteral.uoms_given uoms
                  then Some (map BasicLiteral.as_uom
                               match uoms with
                               | UomsList l => l
                               | UomsOne v => [v]
                               | UomsNone => []
                               end)
                  else None;
                BasicLiteral._uom := None |}
      else Fails AssertionError
  end.
Proof.
  unfold BasicLiteral.__init__.
  destruct (truthy data_type) eqn:Htruthy; cbn [negb].
  - destruct data_type as [d |]; [reflexivity | discriminate Htruthy].
  - destruct (nth_error LITERAL_DATA_TYPES 2); reflexivity.
Qed.

(** X22. [BasicLiteral.__init__] either fails or gives a data type of the
    table, by the exact spelling of the table. It fails with
    [AssertionError] exactly when a data type is given that is not in the
    table, and with [IndexError] exactly when none is given and the table
    has fewer than three entries; given none otherwise, the data type is
    the third entry of the table. *)
Theorem basic_literal_data_type (data_type : option string) (uoms : uoms_arg) :
  (forall lit, BasicLiteral.__init__ data_type uoms = Completes lit ->
     In (BasicLiteral.data_type lit) LITERAL_DATA_TYPES
     /\ (truthy data_type = false ->
         nth_error LITERAL_DATA_TYPES 2 = Some (BasicLiteral.data_type lit)))
  /\ (BasicLiteral.__init__ data_type uoms = Fails AssertionError <->
      exists d, data_type = Some d /\ d <> "" /\ ~ In d LITERAL_DATA_TYPES)
  /\ (BasicLiteral.__init__ data_type uoms = Fails IndexError <->
      truthy data_type = false /\ (length LITERAL_DATA_TYPES < 3)%nat).
Proof.
  split; [| split].
  - intros lit Hinit.
    destruct (basic_literal_init data_type uoms lit Hinit) as (H1 & _ & H3 & _).
    auto.
  - rewrite basic_literal_unfold.
    destruct data_type as [d |]; cbn [truthy].
    + destruct (String.eqb_spec d "") as [-> | Hne]; cbn [negb].
      * destruct (nth_error LITERAL_DATA_TYPES 2) as [x |] eqn:Hnth.
        -- rewrite (nth_in_table x Hnth). split; [discriminate |].
           intros (d & [= <-] & Hd & _). now destruct Hd.
        -- split; [discriminate |].
           intros (d & [= <-] & Hd & _). now destruct Hd.
      * destruct (py_in d LITERAL_DATA_TYPES) eqn:Hin.
        -- split; [discriminate |].
           intros (d' & [= <-] & _ & Hnot). exfalso. apply Hnot.
           now apply py_in_true_iff.
        -- split; [| reflexivity]. intros _. exists d.
           split; [reflexivity |]. split; [exact Hne |].
           intros Hd. apply py_in_true_iff in Hd. congruence.
    + destruct (nth_error LITERAL_DATA_TYPES 2) as [x |] eqn:Hnth.
      * rewrite (nth_in_table x Hnth).
        split; [discriminate | intros (d & [=] & _)].
      * split; [discriminate | intros (d & [=] & _)].
  - rewrite basic_literal_unfold.
    destruct (truthy data_type) eqn:Htruthy.
    + destruct data_type as [d |]; [| discriminate Htruthy].
      destruct (py_in d LITERAL_DATA_TYPES); split;
        first [discriminate | intros [[=] _]].
    + destruct (nth_error LITERAL_DATA_TYPES 2) as [x |] eqn:Hnth.
      * rewrite (nth_in_table x Hnth). split; [discriminate |].
        intros [_ Hlen].
        assert (Hsome : nth_error LITERAL_DATA_TYPES 2 <> None) by congruence.
        apply nth_error_Some in Hsome. lia.
      * split; [| reflexivity]. intros _. split; [reflexivity |].
        apply nth_error_None in Hnth. lia.
Qed.

(** X23. After [BasicLiteral.__init__] the unit in use, [_uom], is unset
    whatever units were passed: the default unit is never taken from
    them. The units passed are kept one for one and in order as [UOM]
    objects, a text wrapped and a [UOM] kept as it is, a single unit as a
    list of one; no units, an empty list or an empty text leave [uoms]
    unset. *)
Theorem basic_literal_uoms (data_type : option string) (uoms : uoms_arg)
    (lit : BasicLiteral.t) :
  BasicLiteral.__init__ data_type uoms = Completes lit ->
  BasicLiteral._uom lit = None
  /\ (forall v rest,
        uoms = UomsList (v :: rest) ->
        BasicLiteral.uoms lit = Some (map BasicLiteral.as_uom (v :: rest)))
  /\ (forall u, uoms = UomsOne (UObject u) -> BasicLiteral.uoms lit = Some [u])
  /\ (forall t, uoms = UomsOne (UText t) -> t <> "" ->
        BasicLiteral.uoms lit = Some [UOM.mk t])
  /\ (uoms = UomsNone \/ uoms = UomsList [] \/ uoms = UomsOne (UText "") ->
      BasicLiteral.uoms lit = None)
  /\ (forall l t, BasicLiteral.uoms lit = Some l ->
        In (UText t) match uoms with
                     | UomsList items => items
                     | UomsOne v => [v]
                     | UomsNone => []
                     end ->
        In (UOM.mk t) l).
Proof.
  intros Hinit.
  destruct (basic_literal_init data_type uoms lit Hinit)
    as (_ & _ & _ & Huom & Huoms).
  split; [exact Huom |]. rewrite Huoms. clear Hinit Huom Huoms.
  split; [| split; [| split; [| split]]].
  - intros v rest ->. reflexivity.
  - intros u ->. reflexivity.
  - intros t -> Ht. cbn. destruct (String.eqb_spec t ""); [contradiction |].
    reflexivity.
  - intros [-> | [-> | ->]]; reflexivity.
  - intros l t Hl Hin.
    destruct (BasicLiteral.uoms_given uoms); [| discriminate Hl].
    injection Hl as <-.
    apply (in_map BasicLiteral.as_uom) in Hin. exact Hin.
Qed.

(** What [set_workdir] yields, for an optional path: with no path, or
    one that exists, the path is stored and the world left as it was;
    when it raises, [os.makedirs] has raised on a path that did not exist,
    and the handle is as it was; when it returns, the path is stored and
    exists. Directories are at most added. *)
Lemma set_workdir_exists (self : IOHandler.t) (w : World)
    (workdir : option string) :
  let r := IOHandler.set_workdir workdir self w in
  files (world_after r) = files w
  /\ streams (world_after r) = streams w
  /\ dirs w ⊆ dirs (world_after r)
  /\ (workdir = None \/ (exists p, workdir = Some p /\ path_exists p w = true) ->
      r = (Return VNone, IOHandler.set__workdir workdir self, w))
  /\ (forall e, outcome r = Raise e ->
        object_after r = self
        /\ exists p made, workdir = Some p /\ path_exists p w = false
                          /\ makedirs_error p w = Some (e, made))
  /\ (forall v, outcome r = Return v ->
        object_after r = IOHandler.set__workdir workdir self
        /\ forall p, workdir = Some p -> path_exists p (world_after r) = true).
Proof.
  intros r. unfold r, IOHandler.set_workdir, outcome, object_after,
    world_after.
  destruct workdir as [d |]; cbn [fst snd].
  2: { do 2 (split; [reflexivity |]). split; [set_solver |].
       split; [reflexivity |]. split; [discriminate |].
       intros v _. split; [reflexivity | discriminate]. }
  destruct (path_exists d w) eqn:Hex; cbn [negb fst snd].
  { do 2 (split; [reflexivity |]). split; [set_solver |].
    split; [reflexivity |]. split; [discriminate |].
    intros v _. split; [reflexivity |]. now intros p [= <-]. }
  destruct (makedirs_spec d w) as (Hf & Hs & Hd & Hout).
  destruct (makedirs d w) as [[v | e] w'] eqn:Hmk; cbn [fst snd] in *;
    do 3 (split; [assumption |]).
  - split; [intros [[=] | (p & [= <-] & Hp)]; congruence |].
    split; [discriminate |].
    intros v' _. split; [reflexivity |]. intros p [= <-].
    now destruct Hout as [(e & made & _ & [=]) | (_ & _ & Hmade)].
  - split; [intros [[=] | (p & [= <-] & Hp)]; congruence |].
    split; [| discriminate].
    intros e' [= <-]. split; [reflexivity |].
    destruct Hout as [(e' & made & Herr & [= <-]) | (_ & [=] & _)].
    exists d, made. auto.
Qed.

(** The same for the two [__init__] of the handlers, which end in
    [set_workdir]. *)
Lemma handler_init (workdir data_type : option string) (w : World) :
  let r := SimpleHandler.__init__ workdir data_type w in
  files (world_after r) = files w
  /\ streams (world_after r) = streams w
  /\ dirs w ⊆ dirs (world_after r)
  /\ (workdir = None \/ (exists p, workdir = Some p /\ path_exists p w = true) ->
      r = (Return VNone,
           SimpleHandler.mk (IOHandler.mk None VNone None workdir) data_type
             None, w))
  /\ (forall e, outcome r = Raise e ->
        exists p made, workdir = Some p /\ path_exists p w = false
                       /\ makedirs_error p w = Some (e, made))
  /\ (forall v, outcome r = Return v ->
        object_after r
          = SimpleHandler.mk (IOHandler.mk None VNone None workdir) data_type
              None
        /\ forall p, workdir = Some p -> path_exists p (world_after r) = true).
Proof.
  intros r. unfold r, SimpleHandler.__init__, IOHandler.__init__.
  destruct (set_workdir_exists (IOHandler.mk None VNone None None) w workdir)
    as (Hf & Hs & Hd & Hsame & Hraise & Hret).
  destruct (IOHandler.set_workdir workdir _ w) as [[[v | e] h] w'] eqn:Hset;
    unfold outcome, object_after, world_after in *; cbn [fst snd] in *;
    do 3 (split; [assumption |]).
  - split.
    + intros Hwd. specialize (Hsame Hwd). injection Hsame as _ -> ->.
      reflexivity.
    + split; [discriminate |]. intros v' _.
      destruct (Hret v eq_refl) as [-> Hex]. split; [reflexivity | exact Hex].
  - split.
    + intros Hwd. specialize (Hsame Hwd). discriminate Hsame.
    + split; [| discriminate]. intros e' [= <-].
      now destruct (Hraise e eq_refl) as [_ Hwhy].
Qed.

(** X24. A literal input made without a data type has none: the default
    that [BasicLiteral.__init__] settles on is overwritten by
    [SimpleHandler.__init__] with the argument as passed, so that on the
    input constructed [set_data] stores nothing and [get_data] returns
    [None]. The construction fails in two cases only: with [IndexError]
    when the table has fewer than three entries, the world being left as
    it was, and with the error of [os.makedirs] when the working directory
    did not exist and could not be made. With three entries and a working
    directory that is [None] or exists, the input is constructed and the
    world left as it was. *)
Theorem literal_input_without_data_type (identifier : string)
    (title abstract workdir : option string)
    (allowed_values : option (list pyval)) (uoms : uoms_arg) (w : World) :
  let made := LiteralInput.__init__ identifier title abstract None workdir
                allowed_values uoms w in
  (forall li, fst made = Completes li ->
     SimpleHandler.data_type (LiteralInput.handler li) = None
     /\ forall data w'',
          SimpleHandler.set_data data (LiteralInput.handler li) w''
            = (Return VNone, LiteralInput.handler li, w'')
          /\ SimpleHandler.get_data (LiteralInput.handler li) w''
             = (Return VNone, LiteralInput.handler li, w''))
  /\ (forall f, fst made = Fails f ->
        (f = IndexError /\ (length LITERAL_DATA_TYPES < 3)%nat /\ snd made = w)
        \/ (exists e p dirs_made,
              f = Builtin e /\ workdir = Some p /\ path_exists p w = false
              /\ makedirs_error p w = Some (e, dirs_made)))
  /\ ((3 <= length LITERAL_DATA_TYPES)%nat ->
      workdir = None \/ (exists p, workdir = Some p /\ path_exists p w = true) ->
      exists li, made = (Completes li, w)).
Proof.
  intros made. unfold made, LiteralInput.__init__.
  rewrite basic_literal_unfold. cbn [truthy negb].
  destruct (nth_error LITERAL_DATA_TYPES 2) as [d |] eqn:Hnth.
  - rewrite (nth_in_table d Hnth).
    destruct (handler_init workdir None w)
      as (_ & _ & _ & Hsame & Hraise & Hret).
    destruct (SimpleHandler.__init__ workdir None w) as [[[v | e] h] w']
      eqn:Hinit; unfold outcome, object_after, world_after in *;
      cbn [fst snd] in *.
    + destruct (Hret v eq_refl) as [-> _].
      split; [| split; [discriminate |]].
      * intros li [= <-]. split; [reflexivity |].
        intros data w''. split; reflexivity.
      * intros _ Hwd. specialize (Hsame Hwd). injection Hsame as _ ->.
        eexists. reflexivity.
    + split; [discriminate |]. split.
      * intros f [= <-]. right.
        destruct (Hraise e eq_refl) as (p & dirs_made & Hwd).
        exists e, p, dirs_made. auto.
      * intros _ Hwd. specialize (Hsame Hwd). discriminate Hsame.
  - cbn [fst snd]. split; [discriminate |]. split.
    + intros f [= <-]. left. apply nth_error_None in Hnth.
      split; [reflexivity |]. split; [lia | reflexivity].
    + intros Hlen. apply nth_error_None in Hnth. lia.
Qed.

(** X25. A literal input given a data type that is not in the table by
    its exact spelling fails the assertion before the working directory is
    looked at, so that the world is left as it was. With a type of the
    table, the construction fails only with the error of [os.makedirs],
    when the working directory did not exist and could not be made; it
    completes, leaving the world as it was, when the working directory is
    [None] or exists. Once constructed, the input keeps the type and the
    working directory, the working directory exists, and [any_value] says
    whether no allowed values were given. *)
Theorem literal_input_with_data_type (identifier d : string)
    (title abstract workdir : option string)
    (allowed_values : option (list pyval)) (uoms : uoms_arg) (w : World) :
  d <> "" ->
  let made := LiteralInput.__init__ identifier title abstract (Some d)
                workdir allowed_values uoms w in
  (~ In d LITERAL_DATA_TYPES -> made = (Fails AssertionError, w))
  /\ (In d LITERAL_DATA_TYPES ->
      (forall li, fst made = Completes li ->
         SimpleHandler.data_type (LiteralInput.handler li) = Some d
         /\ IOHandler._workdir (SimpleHandler.io (LiteralInput.handler li))
            = workdir
         /\ (forall p, workdir = Some p -> path_exists p (snd made) = true)
         /\ (LiteralInput.any_value li = true <-> allowed_values = None))
      /\ (forall f, fst made = Fails f ->
            exists e p dirs_made,
              f = Builtin e /\ workdir = Some p /\ path_exists p w = false
              /\ makedirs_error p w = Some (e, dirs_made))
      /\ (workdir = None
          \/ (exists p, workdir = Some p /\ path_exists p w = true) ->
          exists li, made = (Completes li, w))).
Proof.
  intros Hne made. unfold made, LiteralInput.__init__.
  rewrite basic_literal_unfold. rewrite (truthy_some d Hne).
  split.
  - intros Hnot.
    destruct (py_in d LITERAL_DATA_TYPES) eqn:Hin; [| reflexivity].
    apply py_in_true_iff in Hin. contradiction.
  - intros Hin. apply py_in_true_iff in Hin. cbn [negb]. rewrite Hin.
    destruct (handler_init workdir (Some d) w)
      as (_ & _ & _ & Hsame & Hraise & Hret).
    destruct (SimpleHandler.__init__ workdir (Some d) w) as [[[v | e] h] w']
      eqn:Hinit; unfold outcome, object_after, world_after in *;
      cbn [fst snd] in *.
    + destruct (Hret v eq_refl) as [-> Hex].
      split; [| split; [discriminate |]].
      * intros li [= <-].
        cbn [LiteralInput.handler LiteralInput.any_value
             SimpleHandler.data_type SimpleHandler.io IOHandler._workdir].
        do 3 (split; [reflexivity || assumption |]).
        destruct allowed_values; split; congruence.
      * intros Hwd. specialize (Hsame Hwd). injection Hsame as _ ->.
        eexists. reflexivity.
    + split; [discriminate |]. split.
      * intros f [= <-].
        destruct (Hraise e eq_refl) as (p & dirs_made & Hwd).
        exists e, p, dirs_made. auto.
      * intros Hwd. specialize (Hsame Hwd). discriminate Hsame.
Qed.

(** With [workdir=None] the two [__init__] of the handlers return and
    leave the world as it was. *)
Lemma init_without_workdir (data_type : option string) (w : World) :
  IOHandler.__init__ None w
    = (Return VNone, IOHandler.mk None VNone None None, w)
  /\ SimpleHandler.__init__ None data_type w
     = (Return VNone,
        SimpleHandler.mk (IOHandler.mk None VNone None None) data_type None,
        w).
Proof. split; reflexivity. Qed.

(** X26. The outputs and the bounding-box input do not take the working
    directory they are given: a literal output, a bounding-box input and a
    bounding-box output are made with no working directory, and making
    them leaves the world as it was, whatever [workdir] is passed. *)
Theorem outputs_ignore_workdir (identifier : string)
    (title abstract data_type workdir : option string) (uoms : uoms_arg)
    (crss : option (list string)) (dimensions : option Z) (w : World) :
  (forall lo w',
     LiteralOutput.__init__ identifier title abstract data_type workdir uoms w
       = (Completes lo, w') ->
     w' = w
     /\ IOHandler._workdir (SimpleHandler.io (LiteralOutput.handler lo)) = None)
  /\ snd (BBoxInput.__init__ identifier title abstract crss dimensions
            workdir w) = w
  /\ IOHandler._workdir
       (BBoxInput.handler
          (fst (BBoxInput.__init__ identifier title abstract crss dimensions
                  workdir w))) = None
  /\ snd (BBoxOutput.__init__ identifier title abstract crss dimensions
            workdir w) = w
  /\ IOHandler._workdir
       (SimpleHandler.io
          (BBoxOutput.handler
             (fst (BBoxOutput.__init__ identifier title abstract crss
                     dimensions workdir w)))) = None.
Proof.
  split; [| repeat split].
  intros lo w'. unfold LiteralOutput.__init__.
  destruct (BasicLiteral.__init__ data_type uoms); [| discriminate].
  cbn. intros [= <- <-]. split; reflexivity.
Qed.

(** X27. A bounding box always has a coordinate reference system: the
    list [crss] is never empty, [crs] is its first entry, a list that is
    given and not empty is kept as it is, and with no list or an empty one
    the list is the single entry [epsg:4326]. *)
Theorem bounding_box_crs (crss : option (list string)) (dimensions : option Z) :
  let bb := BasicBoundingBox.__init__ crss dimensions in
  BasicBoundingBox.crss bb <> []
  /\ hd_error (BasicBoundingBox.crss bb) = Some (BasicBoundingBox.crs bb)
  /\ (forall c rest, crss = Some (c :: rest) ->
      BasicBoundingBox.crss bb = c :: rest)
  /\ (crss = None \/ crss = Some [] ->
      BasicBoundingBox.crss bb = ["epsg:4326"]
      /\ BasicBoundingBox.crs bb = "epsg:4326")
  /\ BasicBoundingBox.dimensions bb = dimensions.
Proof.
  intros bb. unfold bb, BasicBoundingBox.__init__.
  destruct crss as [[| c rest] |]; cbn.
  - split; [discriminate |]. split; [reflexivity |].
    split; [intros c rest [=] |]. auto.
  - split; [discriminate |]. split; [reflexivity |].
    split; [intros c' rest' [= <- <-]; reflexivity |].
    split; [| reflexivity]. intros [H | H]; discriminate H.
  - split; [discriminate |]. split; [reflexivity |].
    split; [intros c rest [=] |]. auto.
Qed.

Lemma basic_complex_init_raises (d : option Format.t)
    (sf : option (list Format.t)) (e : exn) :
  BasicComplex.__init__ d sf = Raise e ->
  exists r, d = Some r
            /\ (e = TypeError
                \/ e = InvalidParameterValue (BasicComplex.not_supported r)).
Proof.
  destruct sf as [[| A rest] |].
  - destruct d as [r |]; [| discriminate]. cbn. intros [= <-]. eauto.
  - rewrite init_unfold. destruct d as [r |]; [| discriminate].
    destruct (BasicComplex.supported_loop (A :: rest) r); [discriminate |].
    intros [= <-]. eauto.
  - destruct d as [r |]; [| discriminate]. cbn. intros [= <-]. eauto.
Qed.

(** X28. A complex input is negotiated before it is given a place to
    work. When the formats are refused the constructor raises what the
    negotiation raises, [TypeError] or [InvalidParameterValue] and only if
    an explicit format was given, and the world is as it was: the working
    directory has not been looked at. Otherwise it raises only the error of
    [os.makedirs], when the working directory did not exist and could not
    be made. When it returns, the negotiator is the one [BasicComplex]
    builds from the same formats, the handle has no source and no cached
    file, and the working directory given is stored and exists. *)
Theorem complex_input_construction (identifier : string)
    (title abstract workdir : option string) (data_format : option Format.t)
    (supported_formats : option (list Format.t)) (w : World) :
  let made := ComplexInput.__init__ identifier title abstract workdir
                data_format supported_formats w in
  (forall e, BasicComplex.__init__ data_format supported_formats = Raise e ->
     made = (Raise e, w)
     /\ exists r, data_format = Some r
                  /\ (e = TypeError
                      \/ e = InvalidParameterValue
                               (BasicComplex.not_supported r)))
  /\ (forall e, fst made = Raise e ->
        BasicComplex.__init__ data_format supported_formats = Raise e
        \/ (exists bc p dirs_made,
              BasicComplex.__init__ data_format supported_formats = Return bc
              /\ workdir = Some p /\ path_exists p w = false
              /\ makedirs_error p w = Some (e, dirs_made)))
  /\ (forall ci, fst made = Return ci ->
      BasicComplex.__init__ data_format supported_formats
        = Return (ComplexInput.complex ci)
      /\ IOHandler.source_type (ComplexInput.handler ci) = None
      /\ IOHandler._tempfile (ComplexInput.handler ci) = None
      /\ IOHandler._workdir (ComplexInput.handler ci) = workdir
      /\ (forall p, workdir = Some p -> path_exists p (snd made) = true)).
Proof.
  intros made. unfold made, ComplexInput.__init__.
  destruct (BasicComplex.__init__ data_format supported_formats)
    as [bc | e0] eqn:Hinit.
  - split; [discriminate |].
    unfold IOHandler.__init__.
    destruct (set_workdir_exists (IOHandler.mk None VNone None None) w workdir)
      as (_ & _ & _ & _ & Hraise & Hret).
    destruct (IOHandler.set_workdir workdir _ w) as [[[v | e] h] w'] eqn:Hset;
      unfold outcome, object_after, world_after in *; cbn [fst snd] in *.
    + split; [discriminate |]. intros ci [= <-]. cbn.
      destruct (Hret v eq_refl) as [-> Hex]. repeat split; auto.
    + split; [| discriminate]. intros e' [= <-]. right.
      destruct (Hraise e eq_refl) as (_ & p & dirs_made & Hwhy).
      exists bc, p, dirs_made. auto.
  - cbn [fst snd]. split; [| split; [| discriminate]].
    + intros e [= <-]. split; [reflexivity |].
      now apply (basic_complex_init_raises data_format supported_formats).
    + intros e [= <-]. left. reflexivity.
Qed.

End Entities.

Lemma basic_literal_data_type_witness :
  @BasicLiteral.__init__ sample_runtime (Some "Integer") UomsNone
    = Fails AssertionError
  /\ @BasicLiteral.__init__ short_runtime None UomsNone = Fails IndexError.
Proof.
  split.
  - apply (@basic_literal_data_type sample_runtime (Some "Integer") UomsNone).
    exists "Integer". split; [reflexivity |]. split; [discriminate |].
    simpl. intros H. repeat (destruct H as [H | H]; [discriminate H |]).
    exact H.
  - apply (@basic_literal_data_type short_runtime None UomsNone).
    split; [reflexivity | simpl; lia].
Defined.

Lemma basic_literal_uoms_witness :
  BasicLiteral._uom
    {| BasicLiteral.data_type := "float";
       BasicLiteral.uoms := Some [UOM.mk "metre"; UOM.mk "feet"];
       BasicLiteral._uom := None |} = None.
Proof.
  apply (@basic_literal_uoms sample_runtime (Some "float")
           (UomsList [UText "metre"; UObject (UOM.mk "feet")])).
  reflexivity.
Defined.

Lemma literal_input_without_data_type_witness :
  exists li,
    @LiteralInput.__init__ sample_runtime "depth" None None None
      (Some "/tmp") None UomsNone empty_world = (Completes li, empty_world)
    /\ SimpleHandler.data_type (LiteralInput.handler li) = None.
Proof.
  destruct (@literal_input_without_data_type sample_runtime "depth" None None
              (Some "/tmp") None UomsNone empty_world)
    as (Hnone & _ & Hmade).
  destruct Hmade as [li Hli].
  - simpl. lia.
  - right. exists "/tmp". split; [reflexivity |]. vm_compute. reflexivity.
  - exists li. split; [exact Hli |].
    destruct (Hnone li) as [Htype _]; [now rewrite Hli | exact Htype].
Defined.

Lemma literal_input_with_data_type_witness :
  @LiteralInput.__init__ sample_runtime "depth" None None (Some "Float")
    (Some "/work/job1") None UomsNone empty_world
  = (Fails AssertionError, empty_world).
Proof.
  destruct (@literal_input_with_data_type sample_runtime "depth" "Float"
              None None (Some "/work/job1") None UomsNone empty_world)
    as [Hfail _].
  - discriminate.
  - apply Hfail. simpl. intros H.
    repeat (destruct H as [H | H]; [discriminate H |]). exact H.
Defined.

Lemma outputs_ignore_workdir_witness :
  snd (@LiteralOutput.__init__ sample_runtime "area" None None (Some "float")
         (Some "/work/job1") UomsNone empty_world) = empty_world.
Proof.
  destruct (@LiteralOutput.__init__ sample_runtime "area" None None
              (Some "float") (Some "/work/job1") UomsNone empty_world)
    as [[lo | f] w'] eqn:Hmade; [| discriminate Hmade].
  destruct (@outputs_ignore_workdir sample_runtime "area" None None
              (Some "float") (Some "/work/job1") UomsNone None None
              empty_world) as [Hout _].
  destruct (Hout lo w' Hmade) as [Hw _]. exact Hw.
Defined.

Lemma bounding_box_crs_witness :
  BasicBoundingBox.crs (BasicBoundingBox.__init__ (Some []) (Some 2))
  = "epsg:4326".
Proof.
  destruct (bounding_box_crs (Some []) (Some 2)) as (_ & _ & _ & Hdefault & _).
  apply Hdefault. auto.
Defined.

Lemma complex_input_construction_witness :
  @ComplexInput.__init__ sample_runtime "layer" None None (Some "/work/job1")
    (Some sample_tiff) (Some [sample_json; sample_gml]) empty_world
  = (Raise (InvalidParameterValue (BasicComplex.not_supported sample_tiff)),
     empty_world).
Proof.
  destruct (@complex_input_construction sample_runtime "layer" None None
              (Some "/work/job1") (Some sample_tiff)
              (Some [sample_json; sample_gml]) empty_world)
    as [Hraise _].
  apply (Hraise (InvalidParameterValue (BasicComplex.not_supported sample_tiff))).
  reflexivity.
Defined.

(** ** Starting a job on a cluster *)

Section Cluster.
Context `{RT : Runtime} `{CF : Configuration} `{RM : Remote}.

(** [_build_submit_file] by what [mkstemp] yields. *)
Lemma build_submit_file_unfold (dump_file_name : pyval) (self : Slurm.t)
    (w : World) :
  let made := tempfile_mkstemp "slurm_" ".submit"
                (Some (get_config_value "server" "workdir")) w in
  (forall e, made = (Raise e, w) ->
     Slurm._build_submit_file dump_file_name self w = (Raise e, w))
  /\ (forall p, made = (Return p, set_files (<[p := ""]> (files w)) w) ->
      Slurm._build_submit_file dump_file_name self w =
        (Return VNone,
         set_files
           (<[p := SLURM_TMPL (Slurm.uuid self) "emu" "/home/pingu/anaconda"
                     (text_type dump_file_name)]> (files w)) w)).
Proof.
  intros made. unfold made, Slurm._build_submit_file. split.
  - intros e ->. reflexivity.
  - intros p ->.
    unfold open_w, file_write, set_files. cbn [files dirs streams].
    rewrite lookup_insert_eq, !insert_insert_eq. reflexivity.
Qed.

(** [_build_submit_file] raises or returns [None]. *)
Lemma build_submit_file_outcome (dump_file_name : pyval)
    (self : Slurm.t) (w : World) :
  (exists e, Slurm._build_submit_file dump_file_name self w
             = (Raise e, snd (Slurm._build_submit_file dump_file_name self w)))
  \/ Slurm._build_submit_file dump_file_name self w
     = (Return VNone, snd (Slurm._build_submit_file dump_file_name self w)).
Proof.
  destruct (build_submit_file_unfold dump_file_name self w) as [Hraise Hret].
  destruct (tempfile_mkstemp_spec "slurm_" ".submit"
              (Some (get_config_value "server" "workdir")) w)
    as [[e Hmk] | (p & Hmk & _)].
  - left. exists e. now rewrite (Hraise e Hmk).
  - right. now rewrite (Hret p Hmk).
Qed.


(** X30. [start] never submits the script it wrote. The job is dumped and
    the script built first; if either raises, [start] raises the same and
    nothing is launched. Otherwise the one command [start] hands to the
    launcher is [sbatch None]: the name that reaches [sbatch] is what
    [_build_submit_file] returned, which is [None]. The command is for the
    configured host, or for [localhost] when the host is empty; if the
    launcher raises, [start] raises the same, and if not, [start] returns
    [None]. Whatever happens, nothing is copied and no other command is
    launched. *)
Theorem start_submits_none (self : Slurm.t) (s : Site) :
  let dumped := Slurm.dump self (local s) in
  let host := get_config_value "extra" "host" in
  let target := if String.eqb host "" then "localhost" else host in
  (forall e, fst dumped = Raise e ->
     Slurm.start self s = (Raise e, set_local (snd dumped) s))
  /\ (forall name, fst dumped = Return name ->
      let built := Slurm._build_submit_file name self (snd dumped) in
      (forall e, fst built = Raise e ->
         Slurm.start self s = (Raise e, set_local (snd built) s))
      /\ (forall v, fst built = Return v ->
            Slurm.start self s
            = match launch_error target "sbatch None" with
              | Some e => (Raise e, set_local (snd built) s)
              | None =>
                  (Return VNone,
                   {| local := snd built;
                      copied := copied s;
                      launched :=
                        (launched s ++ [(target, "sbatch None")])%list |})
              end))
  /\ copied (snd (Slurm.start self s)) = copied s
  /\ (forall c, In c (launched (snd (Slurm.start self s))) ->
        In c (launched s) \/ c = (target, "sbatch None")).
Proof.
  intros dumped host target. unfold dumped, Slurm.start.
  destruct (Slurm.dump self (local s)) as [[dump_file_name | e0] w1];
    cbn [fst snd].
  2: { split; [now intros e [= <-] |]. split; [discriminate |].
       split; [reflexivity |]. intros c Hc. now left. }
  split; [discriminate |].
  assert (Hsb : forall w2,
            Slurm.sbatch VNone (Some host) (set_local w2 s)
            = match launch_error target "sbatch None" with
              | Some e => (Raise e, set_local w2 s)
              | None =>
                  (Return VNone,
                   {| local := w2; copied := copied s;
                      launched :=
                        (launched s ++ [(target, "sbatch None")])%list |})
              end).
  { intros w2. unfold Slurm.sbatch, host_or_localhost, set_local, truthy.
    cbn [local copied launched text_type]. fold host. unfold target.
    destruct (String.eqb host ""); reflexivity. }
  destruct (build_submit_file_outcome dump_file_name self w1)
    as [[e Hb] | Hb]; rewrite Hb; cbn [fst snd].
  - split; [| split; [reflexivity |]].
    + intros name [= <-]. rewrite Hb. cbn [fst snd].
      split; [now intros e' [= <-] | discriminate].
    + intros c Hc. now left.
  - rewrite Hsb. split; [| split].
    + intros name [= <-]. rewrite Hb. cbn [fst snd].
      split; [discriminate |]. intros v _. reflexivity.
    + now destruct (launch_error target "sbatch None").
    + intros c.
      destruct (launch_error target "sbatch None"); cbn [snd launched];
        [now left |].
      intros Hc. apply in_app_or in Hc as [Hc | [<- | []]]; auto.
Qed.

End Cluster.


Lemma start_submits_none_witness :
  launched (snd (@Slurm.start sample_runtime sample_configuration
                   sample_remote sample_job sample_site))
    = [("cluster.example.org", "sbatch None")]
  /\ fst (@Slurm.start sample_runtime sample_configuration sample_remote
            sample_job bare_site) = Raise OSError
  /\ launched (snd (@Slurm.start sample_runtime sample_configuration
                      sample_remote sample_job bare_site)) = [].
Proof.
  destruct (@start_submits_none sample_runtime sample_configuration
              sample_remote sample_job sample_site) as (_ & Hmade & _).
  destruct (Hmade (VStr "/work/1f0e.dump") eq_refl) as [_ Hret].
  destruct (@start_submits_none sample_runtime sample_configuration
              sample_remote sample_job bare_site) as (_ & Hbare & _).
  destruct (Hbare (VStr "/work/1f0e.dump") eq_refl) as [Hraise _].
  rewrite (Hret VNone) by (vm_compute; reflexivity).
  rewrite (Hraise OSError) by (vm_compute; reflexivity).
  repeat split.
Defined.

Lemma describe_xml_eq_iff_same_as_witness :
  Format.describe_xml sample_gml = Format.describe_xml requested_gml.
Proof.
  apply (describe_xml_eq_iff_same_as sample_gml requested_gml). reflexivity.
Defined.

Lemma get_format_sentinel_witness :
  Format.mime_type (get_format "gml" (Some 2%nat)) = "None".
Proof.
  destruct (get_format_sentinel "gml" (Some 2%nat)) as (_ & _ & _ & Hiff & _).
  apply Hiff. reflexivity.
Defined.
